(** * Transform state and synchronisation model of the controller studio

    A shallow embedding of the editor's transform store
    ([hooks/useObjectTransforms]), of the configuration-document utilities
    ([utils/configSync]), of the per-object controllers' import/export
    handlers and of the degree/radian boundary of [ObjectControls].

    JavaScript objects are finite maps from property names to values
    (equality of maps is deep equality up to key order), numbers are IEEE-754
    binary64 values ([spec_float] at precision 53), exceptions are an explicit
    [result] type, and every asynchronous operation is run to completion on
    the outcome the platform delivered to it. *)

From Stdlib Require Import ZArith Lia SpecFloat QArith Qabs Qpower Lqa.
From stdpp Require Import gmap strings list fin_maps pretty.

#[local] Set Warnings "-register-all".
#[local] Open Scope Z_scope.

(** ** JavaScript values *)

Module Js.

Abbreviation number := spec_float.

Inductive value :=
  | VUndefined
  | VNull
  | VBool (b : bool)
  | VNum (n : number)
  | VStr (s : string)
  | VArr (l : list value)
  | VObj (o : gmap string value).

(** A plain object: own enumerable properties only. *)
Abbreviation jsobject := (gmap string value).

Inductive exn :=
  | Error (message : string)   (* [new Error(message)] thrown by the source *)
  | TypeError                  (* member access on null/undefined, spreading a non-iterable *)
  | FetchFailed                (* [fetch] rejected *)
  | JsonSyntaxError            (* [response.json()] rejected *)
  | ClipboardWriteFailed.      (* [navigator.clipboard.writeText] rejected *)

Inductive result (A : Type) :=
  | Ok (a : A)
  | Throw (e : exn).
Arguments Ok {A} a.
Arguments Throw {A} e.

#[export] Instance result_ret : MRet result := fun _ a => Ok a.
#[export] Instance result_bind : MBind result := fun _ _ k m =>
  match m with Ok a => k a | Throw e => Throw e end.

(** [NaN], [+0] and [-0] are the falsy numbers. *)
Definition number_truthy (n : number) : bool :=
  match n with
  | S754_zero _ | S754_nan => false
  | _ => true
  end.

Definition string_truthy (s : string) : bool :=
  match s with EmptyString => false | _ => true end.

(** ToBoolean *)
Definition truthy (v : value) : bool :=
  match v with
  | VUndefined | VNull => false
  | VBool b => b
  | VNum n => number_truthy n
  | VStr s => string_truthy s
  | VArr _ | VObj _ => true
  end.

(** Member access [v.k] / [v[k]] for the property names the sources read (the
    four object names and the transform field names): none of them is defined
    on a prototype or on an array or a primitive, so anything but a plain object
    answers [undefined], and null and undefined throw. *)
Definition get (v : value) (k : string) : result value :=
  match v with
  | VUndefined | VNull => Throw TypeError
  | VObj o => Ok (default VUndefined (o !! k))
  | _ => Ok VUndefined
  end.

(** Assignment [v[k] = x] in strict-mode (module) code, for the same property
    names. A named property put on an array is not one of its elements. *)
Definition set (v : value) (k : string) (x : value) : result value :=
  match v with
  | VObj o => Ok (VObj (<[k := x]> o))
  | VArr l => Ok (VArr l)
  | _ => Throw TypeError
  end.

Fixpoint chars (s : string) : list value :=
  match s with
  | EmptyString => []
  | String c s' => VStr (String c EmptyString) :: chars s'
  end.

(** Array spread [[...v]]: arrays and strings are the iterable values. *)
Definition spread_array (v : value) : result value :=
  match v with
  | VArr l => Ok (VArr l)
  | VStr s => Ok (VArr (chars s))
  | _ => Throw TypeError
  end.

(** Object spread [{ ...a, ...b }] of two plain objects: the later one wins. *)
Definition spread (a b : jsobject) : jsobject := b ∪ a.

(** The services of the browser that the sources call and do not define.
    [JSON_stringify] is a function of the value: as objects are maps without
    an order of keys here, the texts of two objects that differ in the order
    of their keys only are not told apart. *)
Class Platform := {
  JSON_stringify : value → option nat → string;  (* value, indentation *)
  Number_toString : Z → string;                  (* of an integral number *)
  parseInt : string → option Z;                  (* [None] is NaN *)
  location_href : string;
}.

(** What [await fetch(url)] delivered: a rejection, or a response whose
    [json()] yields a parsed document or rejects. *)
Inductive FetchOutcome :=
  | FetchRejects
  | Response (ok : bool) (statusText : string) (json : option value).

(** The network as one call sees it, by request URL. *)
Abbreviation Fetch := (string → FetchOutcome).

Definition await_fetch (fetch : Fetch) (url : string) : result FetchOutcome :=
  match fetch url with
  | FetchRejects => Throw FetchFailed
  | r => Ok r
  end.

Definition response_ok (r : FetchOutcome) : bool :=
  match r with Response ok _ _ => ok | FetchRejects => false end.

Definition response_statusText (r : FetchOutcome) : string :=
  match r with Response _ t _ => t | FetchRejects => "" end.

Definition response_json (r : FetchOutcome) : result value :=
  match r with
  | Response _ _ (Some v) => Ok v
  | _ => Throw JsonSyntaxError
  end.



End Js.

Import Js.

(** ** The four objects *)

Inductive ObjectKey := truck | fuelSensor | telematicsDisplay | logo.

#[export] Instance ObjectKey_eq_dec : EqDecision ObjectKey.
Proof. solve_decision. Defined.

Definition key_name (k : ObjectKey) : string :=
  match k with
  | truck => "truck"
  | fuelSensor => "fuelSensor"
  | telematicsDisplay => "telematicsDisplay"
  | logo => "logo"
  end.

(** An object with exactly the four keys, as [ObjectTransforms] is. *)
Record PerObject (A : Type) := mkPerObject {
  of_truck : A;
  of_fuelSensor : A;
  of_telematicsDisplay : A;
  of_logo : A;
}.
Arguments mkPerObject {A}.
Arguments of_truck {A}.
Arguments of_fuelSensor {A}.
Arguments of_telematicsDisplay {A}.
Arguments of_logo {A}.

(** [t[object]] *)
Definition at_key {A} (t : PerObject A) (object : ObjectKey) : A :=
  match object with
  | truck => of_truck t
  | fuelSensor => of_fuelSensor t
  | telematicsDisplay => of_telematicsDisplay t
  | logo => of_logo t
  end.

(** [{ ...t, [object]: a }] *)
Definition with_key {A} (t : PerObject A) (object : ObjectKey) (a : A) : PerObject A :=
  match object with
  | truck => mkPerObject a (of_fuelSensor t) (of_telematicsDisplay t) (of_logo t)
  | fuelSensor => mkPerObject (of_truck t) a (of_telematicsDisplay t) (of_logo t)
  | telematicsDisplay => mkPerObject (of_truck t) (of_fuelSensor t) a (of_logo t)
  | logo => mkPerObject (of_truck t) (of_fuelSensor t) (of_telematicsDisplay t) a
  end.

(** ** hooks/useObjectTransforms *)

Module UseObjectTransforms.

Abbreviation ObjectTransforms := (PerObject jsobject).

Inductive ConnectionStatus := connected | disconnected.

Record StorageEvent := mkStorageEvent {
  key : string;
  newValue : string;
  url : string;
}.

(** The state of the hook and of the browser objects it writes to. *)
Record Hook := mkHook {
  transforms : ObjectTransforms;
  connectionStatus : ConnectionStatus;
  localStorage : gmap string string;
  dispatched : list StorageEvent;   (* [window.dispatchEvent], oldest first *)
  clipboard : option string;
  alerts : list string;
}.

Definition set_transforms (t : ObjectTransforms) (h : Hook) : Hook :=
  mkHook t (connectionStatus h) (localStorage h) (dispatched h) (clipboard h) (alerts h).

Definition setConnectionStatus (s : ConnectionStatus) (h : Hook) : Hook :=
  mkHook (transforms h) s (localStorage h) (dispatched h) (clipboard h) (alerts h).

Definition localStorage_setItem (k v : string) (h : Hook) : Hook :=
  mkHook (transforms h) (connectionStatus h) (<[k := v]> (localStorage h))
         (dispatched h) (clipboard h) (alerts h).

Definition dispatchEvent (e : StorageEvent) (h : Hook) : Hook :=
  mkHook (transforms h) (connectionStatus h) (localStorage h)
         (dispatched h ++ [e]) (clipboard h) (alerts h).

Definition clipboard_writeText (s : string) (h : Hook) : Hook :=
  mkHook (transforms h) (connectionStatus h) (localStorage h) (dispatched h) (Some s) (alerts h).

Definition alert (s : string) (h : Hook) : Hook :=
  mkHook (transforms h) (connectionStatus h) (localStorage h) (dispatched h)
         (clipboard h) (alerts h ++ [s]).

Definition STORAGE_KEYS_TRUCK : string := "truck-config".
Definition STORAGE_KEYS_FUEL_SENSOR : string := "fuel-sensor-config".
Definition STORAGE_KEYS_TELEMATICS : string := "telematics-display-config".
Definition STORAGE_KEYS_LOGO : string := "logo-config".

Definition storageKey (object : ObjectKey) : string :=
  match object with
  | truck => STORAGE_KEYS_TRUCK
  | fuelSensor => STORAGE_KEYS_FUEL_SENSOR
  | telematicsDisplay => STORAGE_KEYS_TELEMATICS
  | logo => STORAGE_KEYS_LOGO
  end.

Definition LAST_MAIN_PAGE_UPDATE : string := "last-main-page-update".
Definition CONTROLLER_UPDATE_TIMESTAMP : string := "controller-update-timestamp".

Section WithPlatform.
Context {P : Platform}.

(** ['/src/config/objectTransforms.json?t=' + Date.now()] *)
Definition config_url (now : Z) : string :=
  "/src/config/objectTransforms.json?t=" +:+ Number_toString now.

(** The object literal that [loadFromJSON] and [importConfig] both build from
    the parsed document. *)
Definition transforms_of_config (config : value) : result ObjectTransforms :=
  c_truck ← get config "truck";
  t_position ← get c_truck "position";
  t_rotation ← get c_truck "rotation";
  t_scale ← get c_truck "scale";
  c_fuel ← get config "fuelSensor";
  f_position ← get c_fuel "position";
  f_rotation ← get c_fuel "rotation";
  f_scale ← get c_fuel "scale";
  f_probeLength ← get c_fuel "probeLength";
  c_tele ← get config "telematicsDisplay";
  d_position ← get c_tele "position";
  d_rotation ← get c_tele "rotation";
  d_size ← get c_tele "size";
  c_logo ← get config "logo";
  l_position ← get c_logo "position";
  l_rotation ← get c_logo "rotation";
  l_scale ← get c_logo "scale";
  l_offsetZ ← get c_logo "offsetZ";
  l_visible ← get c_logo "visible";
  mret (mkPerObject
    (<["position" := t_position]> (<["rotation" := t_rotation]> {["scale" := t_scale]}))
    (<["position" := f_position]> (<["rotation" := f_rotation]>
       (<["scale" := f_scale]> {["probeLength" := f_probeLength]})))
    (<["position" := d_position]> (<["rotation" := d_rotation]> {["size" := d_size]}))
    (<["position" := l_position]> (<["rotation" := l_rotation]>
       (<["scale" := l_scale]> (<["offsetZ" := l_offsetZ]> {["visible" := l_visible]}))))).

(** [loadFromJSON], run once on mount: a failure is logged and nothing else. *)
Definition loadFromJSON (now : Z) (fetch : Fetch) (h : Hook) : Hook :=
  match
    response ← await_fetch fetch (config_url now);
    config ← response_json response;
    transforms_of_config config
  with
  | Ok t => set_transforms t h
  | Throw _ => h
  end.

(** [checkConnection], run on mount and every 2000 ms. *)
Definition checkConnection (now : Z) (h : Hook) : Hook :=
  match localStorage h !! LAST_MAIN_PAGE_UPDATE with
  | Some lastUpdate =>
      if string_truthy lastUpdate then
        match parseInt lastUpdate with
        | Some t =>
            let timeDiff := now - t in
            setConnectionStatus (if timeDiff <? 5000 then connected else disconnected) h
        | None => setConnectionStatus disconnected h   (* NaN < 5000 is false *)
        end
      else h
  | None => h
  end.

Definition syncToStorage (now : Z) (key : string) (v : value) (h : Hook) : Hook :=
  let h := localStorage_setItem key (JSON_stringify v None) h in
  let h := localStorage_setItem CONTROLLER_UPDATE_TIMESTAMP (Number_toString now) h in
  dispatchEvent (mkStorageEvent key (JSON_stringify v None) location_href) h.

(** [updateTransform]: the updater handed to [setTransforms], run once; the
    mirror is written from inside it. *)
Definition updateTransform (now : Z) (object : ObjectKey) (updates : jsobject)
    (h : Hook) : Hook :=
  let prev := transforms h in
  let newTransforms := with_key prev object (spread (at_key prev object) updates) in
  let h := syncToStorage now (storageKey object) (VObj (at_key newTransforms object)) h in
  set_transforms newTransforms h.

Definition exportConfig (clipboard_ok : bool) (h : Hook) : Hook * bool :=
  let config : jsobject :=
    <["telematicsDisplay" := VObj (at_key (transforms h) telematicsDisplay)]>
    (<["fuelSensor" := VObj (at_key (transforms h) fuelSensor)]>
    (<["truck" := VObj (at_key (transforms h) truck)]>
    {["logo" := VObj (at_key (transforms h) logo)]})) in
  let json := JSON_stringify (VObj config) (Some 2%nat) in
  if clipboard_ok then (clipboard_writeText json h, true) else (h, false).

Definition importConfig (now : Z) (fetch : Fetch) (h : Hook) : Hook * bool :=
  match
    response ← await_fetch fetch (config_url now);
    config ← response_json response;
    transforms_of_config config
  with
  | Ok t => (set_transforms t h, true)
  | Throw _ => (h, false)
  end.

(** The [defaultConfig] literal of [resetToDefault]: arrays are copied. *)
Definition defaultConfig_of (config : value) : result ObjectTransforms :=
  c_truck ← get config "truck";
  t_position ← get c_truck "position" ≫= spread_array;
  t_rotation ← get c_truck "rotation" ≫= spread_array;
  t_scale ← get c_truck "scale" ≫= spread_array;
  c_fuel ← get config "fuelSensor";
  f_position ← get c_fuel "position" ≫= spread_array;
  f_rotation ← get c_fuel "rotation" ≫= spread_array;
  f_scale ← get c_fuel "scale";
  f_probeLength ← get c_fuel "probeLength";
  c_tele ← get config "telematicsDisplay";
  d_position ← get c_tele "position" ≫= spread_array;
  d_rotation ← get c_tele "rotation" ≫= spread_array;
  d_size ← get c_tele "size" ≫= spread_array;
  c_logo ← get config "logo";
  l_position ← get c_logo "position" ≫= spread_array;
  l_rotation ← get c_logo "rotation" ≫= spread_array;
  l_scale ← get c_logo "scale" ≫= spread_array;
  l_offsetZ ← get c_logo "offsetZ";
  l_visible ← get c_logo "visible";
  mret (mkPerObject
    (<["position" := t_position]> (<["rotation" := t_rotation]> {["scale" := t_scale]}))
    (<["position" := f_position]> (<["rotation" := f_rotation]>
       (<["scale" := f_scale]> {["probeLength" := f_probeLength]})))
    (<["position" := d_position]> (<["rotation" := d_rotation]> {["size" := d_size]}))
    (<["position" := l_position]> (<["rotation" := l_rotation]>
       (<["scale" := l_scale]> (<["offsetZ" := l_offsetZ]> {["visible" := l_visible]}))))).

Definition resetToDefault (now : Z) (fetch : Fetch) (object : ObjectKey) (h : Hook) : Hook :=
  match
    response ← await_fetch fetch (config_url now);
    config ← response_json response;
    defaultConfig_of config
  with
  | Ok defaultConfig =>
      let h := set_transforms
                 (with_key (transforms h) object (spread ∅ (at_key defaultConfig object))) h in
      syncToStorage now (storageKey object) (VObj (at_key defaultConfig object)) h
  | Throw _ => alert "Reset failed. Check console for details." h
  end.

End WithPlatform.

End UseObjectTransforms.

(** ** utils/configSync *)

Module ConfigSync.

Definition CONFIG_PATH : string := "/src/config/objectTransforms.json".

(** The message of the error [importFromConfig] throws for a missing section. *)
Definition KeyNotFound (objectKey : string) : exn :=
  Error ("No config found for key: " +:+ objectKey).

Section WithPlatform.
Context {P : Platform}.

Definition readConfig (fetch : Fetch) : result value :=
  response ← await_fetch fetch CONFIG_PATH;
  if negb (response_ok response)
  then Throw (Error ("Failed to fetch config: " +:+ response_statusText response))
  else response_json response.

(** [Ok text]: [text] was written to the clipboard. *)
Definition exportToConfig (fetch : Fetch) (clipboard_ok : bool)
    (objectKey : ObjectKey) (config : value) : result string :=
  existingConfig ← readConfig fetch;
  existingConfig ← set existingConfig (key_name objectKey) config;
  let updatedJSON := JSON_stringify existingConfig (Some 2%nat) in
  if clipboard_ok then Ok updatedJSON else Throw ClipboardWriteFailed.

Definition importFromConfig (fetch : Fetch) (objectKey : ObjectKey) : result value :=
  config ← readConfig fetch;
  section ← get config (key_name objectKey);
  if negb (truthy section)
  then Throw (KeyNotFound (key_name objectKey))
  else Ok section.

Definition formatConfigJSON (config : value) : string :=
  JSON_stringify config (Some 2%nat).

Definition generateFullConfigJSON (fetch : Fetch) (objectKey : ObjectKey)
    (config : value) : result string :=
  existingConfig ← readConfig fetch;
  existingConfig ← set existingConfig (key_name objectKey) config;
  Ok (JSON_stringify existingConfig (Some 2%nat)).

End WithPlatform.

End ConfigSync.

(** ** controllers/*Controller: the import and export buttons

    The four controllers keep their own [config] state and share the text of
    [handleImport] and [handleExport] up to the object name. *)

Module Controllers.

Record Controller := mkController {
  config : value;
  exported : bool;
  imported : bool;
}.

Record Page := mkPage {
  controllers : PerObject Controller;
  clipboard : option string;
  alerts : list string;
}.

Definition setConfig (c : value) (k : Controller) : Controller :=
  mkController c (exported k) (imported k).
Definition setExported (b : bool) (k : Controller) : Controller :=
  mkController (config k) b (imported k).
Definition setImported (b : bool) (k : Controller) : Controller :=
  mkController (config k) (exported k) b.

Definition in_controller (object : ObjectKey) (f : Controller → Controller) (p : Page) : Page :=
  mkPage (with_key (controllers p) object (f (at_key (controllers p) object)))
         (clipboard p) (alerts p).

Definition alert (s : string) (p : Page) : Page :=
  mkPage (controllers p) (clipboard p) (alerts p ++ [s]).

Section WithPlatform.
Context {P : Platform}.

Definition handleExport (fetch : Fetch) (clipboard_ok : bool) (object : ObjectKey)
    (p : Page) : Page :=
  match ConfigSync.exportToConfig fetch clipboard_ok object
          (config (at_key (controllers p) object)) with
  | Ok text =>
      in_controller object (setExported true)
        (mkPage (controllers p) (Some text) (alerts p))
  | Throw _ => alert "Export failed. Check console for details." p
  end.

Definition handleImport (fetch : Fetch) (object : ObjectKey) (p : Page) : Page :=
  match ConfigSync.importFromConfig fetch object with
  | Ok importedConfig =>
      in_controller object (fun k => setImported true (setConfig importedConfig k)) p
  | Throw _ => alert "Import failed. Check console for details." p
  end.

End WithPlatform.

End Controllers.

(** ** An HTTP cache in front of the development server

    The reason for the [?t=] suffix: responses are stored by request URL and a
    stored response is served again without asking the server. *)

Module HttpCache.

Abbreviation Cache := (gmap string FetchOutcome).

(** What a request sees: the stored response if there is one, else the server's
    current answer [origin]. *)
Definition fetch_via (cache : Cache) (origin : FetchOutcome) : Fetch :=
  fun url => default origin (cache !! url).

(** The cache after a request for [url] was answered. *)
Definition after_fetch (url : string) (cache : Cache) (origin : FetchOutcome) : Cache :=
  match fetch_via cache origin url with
  | FetchRejects => cache
  | r => <[url := r]> cache
  end.

End HttpCache.

(** ** components/ObjectControls: degrees at the sliders, radians in the store *)

Module ObjectControls.

Definition prec : Z := 53.
Definition emax : Z := 1024.

(** The binary64 operators [*] and [/]. *)
Definition mul : number → number → number := SFmul prec emax.
Definition div : number → number → number := SFdiv prec emax.

(** The number denoted by an integer literal. *)
Definition literal (z : Z) : number := binary_normalize prec emax z 0 false.

(** [Math.PI], 0x1.921fb54442d18p+1 *)
Definition Math_PI : number := S754_finite false 7074237752028440 (-51).

(** [value * (Math.PI / 180)], the number [updateRotation] stores *)
Definition to_radians (value : number) : number :=
  mul value (div Math_PI (literal 180)).

(** [transform.rotation[i] * (180 / Math.PI)], the number the slider shows *)
Definition to_degrees (rotation_i : number) : number :=
  mul rotation_i (div (literal 180) Math_PI).

(** [a[index] = x] on an array: past the end the array grows, with holes. *)
Definition array_set (l : list value) (index : nat) (x : value) : list value :=
  if decide (index < length l)%nat then <[index := x]> l
  else l ++ replicate (index - length l) VUndefined ++ [x].

(** [updateRotation]: the [updates] object handed to [onChange]. *)
Definition updateRotation (transform : jsobject) (index : nat) (value : number)
    : result jsobject :=
  newRotation ← spread_array (default VUndefined (transform !! "rotation"));
  match newRotation with
  | VArr l => Ok {["rotation" := VArr (array_set l index (VNum (to_radians value)))]}
  | _ => Throw TypeError
  end.

(** The [value] of the rotation slider of axis [index]. *)
Definition rotation_slider_value (transform : jsobject) (index : nat) : option number :=
  match transform !! "rotation" with
  | Some (VArr l) =>
      match l !! index with
      | Some (VNum r) => Some (to_degrees r)
      | _ => None
      end
  | _ => None
  end.

(** [updatePosition]: the [updates] object handed to [onChange]. *)
Definition updatePosition (transform : jsobject) (index : nat) (value : number)
    : result jsobject :=
  newPosition ← spread_array (default VUndefined (transform !! "position"));
  match newPosition with
  | VArr l => Ok {["position" := VArr (array_set l index (VNum value))]}
  | _ => Throw TypeError
  end.

End ObjectControls.

(** ** Binary64 numbers as rationals

    The value of a finite binary64 number, to state how far the result of a
    floating-point computation is from another number. *)

Module Binary64.
Import ObjectControls.

(** [2 ^ z] *)
Definition B (z : Z) : Q := (2 ^ z)%Q.

(** The absolute value of a finite number; 0 for the others. *)
Definition mag (x : number) : Q :=
  match x with
  | S754_finite _ m e => (inject_Z (Zpos m) * B e)%Q
  | _ => 0%Q
  end.

(** The value of a finite number; 0 for the others. *)
Definition to_Q (x : number) : Q :=
  match x with
  | S754_finite s m e => (inject_Z (cond_Zopp s (Zpos m)) * B e)%Q
  | _ => 0%Q
  end.

(** Neither NaN nor an infinity. *)
Definition is_finite (x : number) : bool :=
  match x with
  | S754_zero _ | S754_finite _ _ _ => true
  | _ => false
  end.

(** A zero or a finite number of sign [s]. *)
Definition signed (s : bool) (x : number) : Prop :=
  x = S754_zero s ∨ ∃ m e, x = S754_finite s m e.

(** What [binary_round_aux] makes of a mantissa and an exponent once it has
    rounded them. *)
Definition build (s : bool) (m e : Z) : number :=
  match m with
  | 0 => S754_zero s
  | Zpos p => if e <=? emax - prec then S754_finite s p e else S754_infinity s
  | Zneg _ => S754_nan
  end.

(** The mantissa of 180. *)
Definition plus_180 : positive := 6333186975989760.

(** [Math.PI / 180] and [180 / Math.PI], evaluated. *)
Definition radians_per_degree : number := S754_finite false 5030569068109113 (-58).
Definition degrees_per_radian : number := S754_finite false 8063664102031864 (-47).

End Binary64.

(** ** The editor as a sequence of actions *)

Module Editor.
Import UseObjectTransforms.

(** What can happen in the editor's context: a control is moved, a button is
    pressed, or the connection timer fires. *)
Inductive Action :=
  | Update (now : Z) (object : ObjectKey) (updates : jsobject)
  | Reset (now : Z) (fetch : Fetch) (object : ObjectKey)
  | Import (now : Z) (fetch : Fetch)
  | Export (clipboard_ok : bool)
  | Poll (now : Z).

Definition is_poll (a : Action) : bool :=
  match a with Poll _ => true | _ => false end.

Section WithPlatform.
Context {P : Platform}.

Definition step (h : Hook) (a : Action) : Hook :=
  match a with
  | Update now object updates => updateTransform now object updates h
  | Reset now fetch object => resetToDefault now fetch object h
  | Import now fetch => (importConfig now fetch h).1
  | Export clipboard_ok => (exportConfig clipboard_ok h).1
  | Poll now => checkConnection now h
  end.

Definition run (actions : list Action) (h : Hook) : Hook := foldl step h actions.

End WithPlatform.

Definition is_import (a : Action) : bool :=
  match a with Import _ _ => true | _ => false end.

Section Mirror.
Context {P : Platform}.

(** The storage slot of [object], when written, holds the serialisation of the
    object's current transform. *)
Definition slot_consistent (h : Hook) (object : ObjectKey) : Prop :=
  match localStorage h !! storageKey object with
  | Some s => s = JSON_stringify (VObj (at_key (transforms h) object)) None
  | None => True
  end.

Definition mirror_consistent (h : Hook) : Prop := ∀ object, slot_consistent h object.

End Mirror.

End Editor.

(** ** The shape of the configuration document *)

Module Shape.

Definition is_array (v : value) : bool :=
  match v with VArr _ => true | _ => false end.

(** The fields of each object's section, in the order of [ObjectTransforms],
    and whether the field is an array. *)
Definition fields (object : ObjectKey) : list (string * bool) :=
  match object with
  | truck => [("position", true); ("rotation", true); ("scale", true)]
  | fuelSensor =>
      [("position", true); ("rotation", true); ("scale", false); ("probeLength", false)]
  | telematicsDisplay => [("position", true); ("rotation", true); ("size", true)]
  | logo =>
      [("position", true); ("rotation", true); ("scale", true); ("offsetZ", false);
       ("visible", false)]
  end.

(** [o] has exactly the fields of [object], and arrays where arrays belong. *)
Definition has_shape (object : ObjectKey) (o : jsobject) : bool :=
  bool_decide (dom o = list_to_set (fst <$> fields object))
  && forallb (λ f, implb f.2 (is_array (default VUndefined (o !! f.1)))) (fields object).

Definition section_has_shape (doc : jsobject) (object : ObjectKey) : bool :=
  match doc !! key_name object with
  | Some (VObj o) => has_shape object o
  | _ => false
  end.

(** A document with a well-shaped section for each of the four objects. *)
Definition well_shaped (doc : jsobject) : bool :=
  forallb (section_has_shape doc) [truck; fuelSensor; telematicsDisplay; logo].

(** [o] has exactly the fields of [object], whatever they hold. *)
Definition has_fields (object : ObjectKey) (o : jsobject) : bool :=
  bool_decide (dom o = list_to_set (fst <$> fields object)).

Definition section_has_fields (doc : jsobject) (object : ObjectKey) : bool :=
  match doc !! key_name object with
  | Some (VObj o) => has_fields object o
  | _ => false
  end.

(** A document whose four sections are objects with exactly their fields. *)
Definition well_fielded (doc : jsobject) : bool :=
  forallb (section_has_fields doc) [truck; fuelSensor; telematicsDisplay; logo].

(** Transforms that have exactly their fields, each. *)
Definition transforms_have_fields (t : PerObject jsobject) : bool :=
  forallb (λ object, has_fields object (at_key t object))
          [truck; fuelSensor; telematicsDisplay; logo].

End Shape.

(** ** controllers/*Controller: the edits of the local configuration

    The updaters handed to [setConfig]; [Throw] is an exception raised inside
    the updater. *)

Module ControllerEdits.

(** The own enumerable properties of a value, which [{ ...v }] copies. *)
Definition own_properties (v : value) : jsobject :=
  match v with
  | VObj o => o
  | VArr l => list_to_map (imap (λ i x, (pretty i, x)) l)
  | VStr s => list_to_map (imap (λ i x, (pretty i, x)) (chars s))
  | _ => ∅
  end.

(** [newConfig = { ...prev }; newConfig.f = [...newConfig.f]; newConfig.f[index] = x] *)
Definition set_component (field : string) (index : nat) (x : value) (prev : value)
    : result value :=
  let newConfig := own_properties prev in
  copy ← spread_array (default VUndefined (newConfig !! field));
  match copy with
  | VArr l => Ok (VObj (<[field := VArr (ObjectControls.array_set l index x)]> newConfig))
  | _ => Throw TypeError
  end.

(** [{ ...prev, f: x }] *)
Definition set_field (field : string) (x : value) (prev : value) : value :=
  VObj (<[field := x]> (own_properties prev)).

(** [updatePosition] of the four controllers *)
Definition updatePosition (index : nat) (value : number) : Js.value → result Js.value :=
  set_component "position" index (VNum value).

(** [updateRotation] of the truck, fuel sensor and display controllers: the
    caller passes radians *)
Definition updateRotation (index : nat) (value : number) : Js.value → result Js.value :=
  set_component "rotation" index (VNum value).

(** [updateRotation] of the logo controller: the caller passes degrees *)
Definition LogoController_updateRotation (index : nat) (value : number)
    : Js.value → result Js.value :=
  set_component "rotation" index (VNum (ObjectControls.to_radians value)).

(** [updateScale] of the logo controller *)
Definition LogoController_updateScale (index : nat) (value : number) : Js.value → result Js.value :=
  set_component "scale" index (VNum value).

(** [updateSize] of the display controller *)
Definition updateSize (index : nat) (value : number) : Js.value → result Js.value :=
  set_component "size" index (VNum value).

(** [updateUniformScale] of the truck controller *)
Definition updateUniformScale (value : number) : Js.value → Js.value :=
  set_field "scale" (VArr [VNum value; VNum value; VNum value]).

(** [updateScale] and [updateProbeLength] of the fuel sensor controller *)
Definition FuelSensorController_updateScale (value : number) : Js.value → Js.value :=
  set_field "scale" (VNum value).
Definition updateProbeLength (value : number) : Js.value → Js.value :=
  set_field "probeLength" (VNum value).

(** [updateOffsetZ] and [toggleVisibility] of the logo controller *)
Definition updateOffsetZ (value : number) : Js.value → Js.value :=
  set_field "offsetZ" (VNum value).
Definition toggleVisibility (prev : value) : result value :=
  visible ← get prev "visible";
  Ok (set_field "visible" (VBool (negb (truthy visible))) prev).

End ControllerEdits.

(** ** A sample platform and sample documents, for closed instances *)

Module Sample.

Definition digit (c : Ascii.ascii) : option Z :=
  let n := Z.of_nat (Ascii.nat_of_ascii c) in
  if (48 <=? n) && (n <=? 57) then Some (n - 48) else None.

Fixpoint digits (s : string) (acc : option Z) : option Z :=
  match s with
  | EmptyString => acc
  | String c s' =>
      match digit c with
      | Some d => digits s' (Some (10 * default 0 acc + d))
      | None => acc
      end
  end.

(** Decimal [parseInt]: an optional minus sign and the longest digit prefix. *)
Definition parseInt (s : string) : option Z :=
  match s with
  | String (Ascii.Ascii true false true true false true false false) s' => Z.opp <$> digits s' None
  | _ => digits s None
  end.

(** A stand-in for [JSON.stringify] that only tells the kinds of values apart. *)
Definition stringify (v : value) (indent : option nat) : string :=
  match v with
  | VUndefined => "undefined"
  | VNull => "null"
  | VBool true => "true"
  | VBool false => "false"
  | VNum _ => "0"
  | VStr s => s
  | VArr _ => "[]"
  | VObj _ => "{}"
  end.

#[export] Instance platform : Platform := {|
  JSON_stringify := stringify;
  Number_toString := pretty.pretty;
  Js.parseInt := parseInt;
  location_href := "http://localhost:3000/";
|}.

Definition num (z : Z) : value := VNum (ObjectControls.literal z).
Definition vec (l : list Z) : value := VArr (num <$> l).

Definition truck_section : jsobject :=
  <["position" := vec [1; -1; -5]]> (<["rotation" := vec [0; 3; 0]]>
    {["scale" := vec [1; 1; 1]]}).
Definition fuelSensor_section : jsobject :=
  <["position" := vec [3; 0; -5]]> (<["rotation" := vec [0; 0; 0]]>
    (<["scale" := num 1]> {["probeLength" := num 1]})).
Definition telematicsDisplay_section : jsobject :=
  <["position" := vec [0; 5; 0]]> (<["rotation" := vec [0; 0; 0]]>
    {["size" := vec [8; 4]]}).
Definition logo_section : jsobject :=
  <["position" := vec [0; 2; 5]]> (<["rotation" := vec [0; 0; 0]]>
    (<["scale" := vec [1; 1]]> (<["offsetZ" := num (-1)]> {["visible" := VBool true]}))).

Definition document : jsobject :=
  <["truck" := VObj truck_section]> (<["fuelSensor" := VObj fuelSensor_section]>
    (<["telematicsDisplay" := VObj telematicsDisplay_section]>
      {["logo" := VObj logo_section]})).

(** The same document after the truck was moved. *)
Definition document' : jsobject :=
  <["truck" := VObj (<["position" := vec [2; 2; 2]]> truck_section)]> document.

(** An update of the truck's position, as a slider sends it. *)
Definition moved : jsobject := {["position" := vec [9; 9; 9]]}.



Definition serve (doc : jsobject) : FetchOutcome := Response true "OK" (Some (VObj doc)).

Definition hook : UseObjectTransforms.Hook :=
  UseObjectTransforms.mkHook
    (mkPerObject truck_section fuelSensor_section telematicsDisplay_section logo_section)
    UseObjectTransforms.disconnected ∅ [] None [].

Definition page : Controllers.Page :=
  Controllers.mkPage
    (mkPerObject
      (Controllers.mkController (VObj truck_section) false false)
      (Controllers.mkController (VObj fuelSensor_section) false false)
      (Controllers.mkController (VObj telematicsDisplay_section) false false)
      (Controllers.mkController (VObj logo_section) false false))
    None [].

End Sample.

(** * Properties *)

Section PerObjectFacts.
Context {A : Type}.
Implicit Types (t : PerObject A) (k : ObjectKey) (a : A).

Lemma at_key_with_key t k a : at_key (with_key t k a) k = a.
Proof. by destruct k. Qed.

Lemma at_key_with_key_ne t k k' a : k ≠ k' → at_key (with_key t k a) k' = at_key t k'.
Proof. by destruct k, k'. Qed.

Lemma with_key_with_key t k a a' : with_key (with_key t k a) k a' = with_key t k a'.
Proof. by destruct k. Qed.

End PerObjectFacts.

Lemma lookup_spread (a b : jsobject) (field : string) :
  spread a b !! field = match b !! field with Some v => Some v | None => a !! field end.
Proof.
  unfold spread. rewrite lookup_union.
  by destruct (b !! field), (a !! field).
Qed.

Lemma spread_empty_l (b : jsobject) : spread ∅ b = b.
Proof. unfold spread. apply (right_id ∅ (∪)). Qed.

Section HookProperties.
Context {P : Platform}.
Import UseObjectTransforms.

Lemma transforms_syncToStorage now k v h :
  transforms (syncToStorage now k v h) = transforms h.
Proof. reflexivity. Qed.

Lemma transforms_updateTransform now object updates h :
  transforms (updateTransform now object updates h) =
  with_key (transforms h) object (spread (at_key (transforms h) object) updates).
Proof. reflexivity. Qed.

(** C2: after [updateTransform object updates], each field of [object] named
    in [updates] has the value [updates] gives it (an array as a whole) and
    every other field has the value it had before; the two fuel-sensor updates
    of [scale] to 2 and then of [probeLength] to 0.8 leave both in place. *)
Theorem updateTransform_merges_fields :
  (∀ now object updates h field,
     at_key (transforms (updateTransform now object updates h)) object !! field =
     match updates !! field with
     | Some v => Some v
     | None => at_key (transforms h) object !! field
     end)
  ∧ (∀ now now' h,
       let two := VNum (ObjectControls.literal 2) in
       let zero_8 := VNum (ObjectControls.div (ObjectControls.literal 8)
                                              (ObjectControls.literal 10)) in
       let h' := updateTransform now' fuelSensor {["probeLength" := zero_8]}
                   (updateTransform now fuelSensor {["scale" := two]} h) in
       at_key (transforms h') fuelSensor !! "scale" = Some two
       ∧ at_key (transforms h') fuelSensor !! "probeLength" = Some zero_8).
Proof.
  assert (Hmerge : ∀ now object updates h field,
     at_key (transforms (updateTransform now object updates h)) object !! field =
     match updates !! field with
     | Some v => Some v
     | None => at_key (transforms h) object !! field
     end).
  { intros. rewrite transforms_updateTransform, at_key_with_key. apply lookup_spread. }
  split; [exact Hmerge|].
  intros now now' h two zero_8 h'. subst h'. split.
  - rewrite Hmerge, lookup_singleton_ne by done.
    by rewrite Hmerge, lookup_singleton_eq.
  - by rewrite Hmerge, lookup_singleton_eq.
Qed.

End HookProperties.

Section MirrorProperties.
Context {P : Platform}.
Import UseObjectTransforms.

(** What [syncToStorage] leaves behind: the slot, the timestamp, one event. *)
Lemma syncToStorage_mirror now k v h :
  let h' := syncToStorage now k v h in
  localStorage h' =
    <[CONTROLLER_UPDATE_TIMESTAMP := Number_toString now]>
      (<[k := JSON_stringify v None]> (localStorage h))
  ∧ dispatched h' = dispatched h ++ [mkStorageEvent k (JSON_stringify v None) location_href].
Proof. by split. Qed.

Lemma storageKey_ne_timestamp object : storageKey object ≠ CONTROLLER_UPDATE_TIMESTAMP.
Proof. by destruct object. Qed.

Lemma syncToStorage_slot now object v h :
  localStorage (syncToStorage now (storageKey object) v h) !! storageKey object
    = Some (JSON_stringify v None)
  ∧ localStorage (syncToStorage now (storageKey object) v h) !! CONTROLLER_UPDATE_TIMESTAMP
    = Some (Number_toString now).
Proof.
  destruct (syncToStorage_mirror now (storageKey object) v h) as [-> _]. split.
  - rewrite lookup_insert_ne by (apply not_eq_sym, storageKey_ne_timestamp).
    apply lookup_insert_eq.
  - apply lookup_insert_eq.
Qed.

(** The partial update mirrors the merged transform. *)
Lemma updateTransform_mirrors now object updates h :
  let h' := updateTransform now object updates h in
  let serialized := JSON_stringify (VObj (at_key (transforms h') object)) None in
  localStorage h' !! storageKey object = Some serialized
  ∧ localStorage h' !! CONTROLLER_UPDATE_TIMESTAMP = Some (Number_toString now)
  ∧ dispatched h' =
      dispatched h ++ [mkStorageEvent (storageKey object) serialized location_href].
Proof.
  intros h' serialized. subst h' serialized.
  rewrite transforms_updateTransform, at_key_with_key.
  unfold updateTransform. cbn [localStorage dispatched set_transforms].
  rewrite at_key_with_key.
  destruct (syncToStorage_slot now object
              (VObj (spread (at_key (transforms h) object) updates)) h) as [-> ->].
  done.
Qed.

Lemma resetToDefault_success now fetch object h r doc d :
  fetch (config_url now) = r → response_json r = Ok doc → defaultConfig_of doc = Ok d →
  resetToDefault now fetch object h =
    syncToStorage now (storageKey object) (VObj (at_key d object))
      (set_transforms (with_key (transforms h) object (at_key d object)) h).
Proof.
  intros Hr Hdoc Hd. unfold resetToDefault, await_fetch. rewrite Hr.
  destruct r as [|ok st j]; [done|]. cbn [mbind result_bind].
  rewrite Hdoc. cbn [mbind result_bind]. rewrite Hd.
  by rewrite spread_empty_l.
Qed.

(** A reset that went through mirrors the section it installed. *)
Lemma resetToDefault_mirrors now fetch object h r doc d :
  fetch (config_url now) = r → response_json r = Ok doc → defaultConfig_of doc = Ok d →
  let h' := resetToDefault now fetch object h in
  let serialized := JSON_stringify (VObj (at_key (transforms h') object)) None in
  localStorage h' !! storageKey object = Some serialized
  ∧ localStorage h' !! CONTROLLER_UPDATE_TIMESTAMP = Some (Number_toString now)
  ∧ dispatched h' =
      dispatched h ++ [mkStorageEvent (storageKey object) serialized location_href].
Proof.
  intros Hr Hdoc Hd h' serialized. subst h' serialized.
  rewrite (resetToDefault_success _ _ _ _ _ _ _ Hr Hdoc Hd).
  rewrite transforms_syncToStorage. cbn [transforms set_transforms].
  rewrite at_key_with_key.
  destruct (syncToStorage_slot now object (VObj (at_key d object))
    (set_transforms (with_key (transforms h) object (at_key d object)) h)) as [-> ->].
  done.
Qed.

(** C1: the whole-configuration import replaces the transforms of all four
    objects and mirrors none of them: whatever the document, [importConfig]
    leaves every storage slot and the timestamp as they were and dispatches no
    event; on the sample document it does replace the truck's transform. *)
Theorem importConfig_does_not_mirror :
  (∀ now fetch h,
     localStorage (importConfig now fetch h).1 = localStorage h
     ∧ dispatched (importConfig now fetch h).1 = dispatched h)
  ∧ (let h' := (importConfig 1000 (λ _, Sample.serve Sample.document') Sample.hook).1 in
     at_key (transforms h') truck ≠ at_key (transforms Sample.hook) truck
     ∧ localStorage h' !! storageKey truck = None
     ∧ dispatched h' = []).
Proof.
  split.
  - intros now fetch h. unfold importConfig.
    by destruct (_ ≫= _).
  - cbn zeta. split; [|by split].
    intros Heq.
    apply (f_equal (λ o : jsobject, o !! "position")) in Heq.
    vm_compute in Heq. discriminate Heq.
Qed.

End MirrorProperties.

Section ConnectionProperties.
Context {P : Platform}.
Import UseObjectTransforms Editor.

Lemma checkConnection_localStorage now h :
  localStorage (checkConnection now h) = localStorage h.
Proof.
  unfold checkConnection.
  destruct (localStorage h !! _) as [s|]; [|done].
  destruct (string_truthy s); [|done].
  by destruct (parseInt s).
Qed.

(** The status a poll reports is a function of the old status and of the
    stored main-page timestamp alone. *)
Lemma checkConnection_status_ext now h1 h2 :
  connectionStatus h1 = connectionStatus h2 →
  localStorage h1 !! LAST_MAIN_PAGE_UPDATE = localStorage h2 !! LAST_MAIN_PAGE_UPDATE →
  connectionStatus (checkConnection now h1) = connectionStatus (checkConnection now h2).
Proof.
  intros Hs Hl. unfold checkConnection. rewrite Hl.
  destruct (localStorage h2 !! _) as [s|]; [|done].
  destruct (string_truthy s); [|done].
  by destruct (parseInt s).
Qed.

Lemma storageKey_ne_last object : storageKey object ≠ LAST_MAIN_PAGE_UPDATE.
Proof. by destruct object. Qed.

Lemma syncToStorage_last now object v h :
  localStorage (syncToStorage now (storageKey object) v h) !! LAST_MAIN_PAGE_UPDATE
  = localStorage h !! LAST_MAIN_PAGE_UPDATE.
Proof.
  destruct (syncToStorage_mirror now (storageKey object) v h) as [-> _].
  rewrite lookup_insert_ne by done.
  by rewrite lookup_insert_ne by apply storageKey_ne_last.
Qed.

Lemma syncToStorage_status now k v h :
  connectionStatus (syncToStorage now k v h) = connectionStatus h.
Proof. reflexivity. Qed.

(** An action that is not a poll keeps the status and the polled key. *)
Lemma step_write_invisible h a :
  is_poll a = false →
  connectionStatus (step h a) = connectionStatus h
  ∧ localStorage (step h a) !! LAST_MAIN_PAGE_UPDATE = localStorage h !! LAST_MAIN_PAGE_UPDATE.
Proof.
  destruct a as [now object updates|now fetch object|now fetch|ok|now]; intros Hp;
    try discriminate Hp; cbn [step].
  - unfold updateTransform. cbn [connectionStatus localStorage set_transforms].
    by rewrite syncToStorage_last.
  - unfold resetToDefault. destruct (_ ≫= _) as [d|e]; [|done].
    by rewrite syncToStorage_last.
  - unfold importConfig. by destruct (_ ≫= _).
  - unfold exportConfig. by destruct ok.
Qed.

Lemma step_last h a :
  localStorage (step h a) !! LAST_MAIN_PAGE_UPDATE = localStorage h !! LAST_MAIN_PAGE_UPDATE.
Proof.
  destruct (is_poll a) eqn:Hp.
  - destruct a; try discriminate Hp. cbn [step]. by rewrite checkConnection_localStorage.
  - by apply step_write_invisible.
Qed.

Lemma run_last actions h :
  localStorage (run actions h) !! LAST_MAIN_PAGE_UPDATE = localStorage h !! LAST_MAIN_PAGE_UPDATE.
Proof.
  revert h. induction actions as [|a actions IH]; intros h; [done|].
  cbn [run foldl]. fold (run actions (step h a)). by rewrite IH, step_last.
Qed.

(** Dropping the writes from a history changes neither the status nor what
    the poller reads. *)
Lemma run_polls_only actions : ∀ h1 h2,
  connectionStatus h1 = connectionStatus h2 →
  localStorage h1 !! LAST_MAIN_PAGE_UPDATE = localStorage h2 !! LAST_MAIN_PAGE_UPDATE →
  connectionStatus (run actions h1) = connectionStatus (run (filter is_poll actions) h2).
Proof.
  induction actions as [|a actions IH]; intros h1 h2 Hs Hl; [done|].
  cbn [run foldl]. fold (run actions (step h1 a)).
  rewrite filter_cons. destruct (decide (is_poll a)) as [Hp|Hp].
  - cbn [run foldl]. fold (run (filter is_poll actions) (step h2 a)).
    destruct a; try done. cbn [step]. apply IH.
    + by apply checkConnection_status_ext.
    + by rewrite !checkConnection_localStorage.
  - assert (Hp' : is_poll a = false) by (by destruct (is_poll a)).
    clear Hp. rename Hp' into Hp.
    destruct (step_write_invisible h1 a Hp) as [Hs' Hl'].
    apply IH; congruence.
Qed.

(** C10: the timestamp key the mirror writes is not the key the poller reads;
    so over every history of editor actions the value under the polled key
    stays what it was, and the connection status is the one the polls alone
    would have produced: no write of the editor ever turns it to connected. *)
Theorem mirror_invisible_to_poller :
  CONTROLLER_UPDATE_TIMESTAMP ≠ LAST_MAIN_PAGE_UPDATE
  ∧ (∀ actions h,
       localStorage (run actions h) !! LAST_MAIN_PAGE_UPDATE
         = localStorage h !! LAST_MAIN_PAGE_UPDATE
       ∧ connectionStatus (run actions h)
         = connectionStatus (run (filter is_poll actions) h)).
Proof.
  split; [done|]. intros actions h. split.
  - apply run_last.
  - by apply run_polls_only.
Qed.

(** C7, as the code has it: with a non-empty timestamp in storage the poll
    reports connected exactly when the timestamp parses to a time less than
    5000 ms before now, and disconnected otherwise; with no timestamp (or an
    empty one) the poll changes nothing, so the status stays what it was. *)
Theorem checkConnection_reports now h :
  (∀ lastUpdate,
     localStorage h !! LAST_MAIN_PAGE_UPDATE = Some lastUpdate → lastUpdate ≠ "" →
     (connectionStatus (checkConnection now h) = connected
        ↔ ∃ t, parseInt lastUpdate = Some t ∧ now - t < 5000)
     ∧ (connectionStatus (checkConnection now h) = disconnected
        ↔ ¬ ∃ t, parseInt lastUpdate = Some t ∧ now - t < 5000))
  ∧ (localStorage h !! LAST_MAIN_PAGE_UPDATE = None
     ∨ localStorage h !! LAST_MAIN_PAGE_UPDATE = Some "" →
     checkConnection now h = h).
Proof.
  split.
  - intros s Hs Hne. unfold checkConnection. rewrite Hs.
    destruct s as [|c s]; [done|]. cbn [string_truthy].
    destruct (parseInt (String c s)) as [t|].
    + destruct (Z.ltb_spec (now - t) 5000) as [Hlt|Hge];
        cbn [connectionStatus setConnectionStatus]; (split; split).
      * eauto.
      * done.
      * done.
      * intros Hn. destruct Hn. eauto.
      * done.
      * intros (t' & [= <-] & Hlt). lia.
      * intros _ (t' & [= <-] & Hlt). lia.
      * done.
    + cbn [connectionStatus setConnectionStatus]. split; split; try done.
      * by intros (t' & ? & _).
      * by intros _ (t' & ? & _).
  - intros [Hs|Hs]; unfold checkConnection; by rewrite Hs.
Qed.

End ConnectionProperties.

Section ShapeFacts.
Import Shape.

Lemma lookup_foldr_insert (g : string → value) (fs : list string) (i : string) :
  foldr (λ f (m : jsobject), <[f := g f]> m) ∅ fs !! i
  = if decide (i ∈ fs) then Some (g i) else None.
Proof.
  induction fs as [|f fs IH]; cbn [foldr].
  - rewrite lookup_empty. by rewrite decide_False by apply not_elem_of_nil.
  - destruct (decide (f = i)) as [->|Hne].
    + rewrite lookup_insert_eq. by rewrite decide_True by apply list_elem_of_here.
    + rewrite lookup_insert_ne, IH by done.
      destruct (decide (i ∈ fs)) as [Hin|Hin].
      * by rewrite decide_True by by apply list_elem_of_further.
      * rewrite decide_False; [done|].
        intros [?|?]%elem_of_cons; [congruence|done].
Qed.

(** An object is determined by its keys and the values under them. *)
Lemma object_eta (fs : list string) (o : jsobject) :
  dom o = list_to_set fs →
  o = foldr (λ f (m : jsobject), <[f := default VUndefined (o !! f)]> m) ∅ fs.
Proof.
  intros Hdom. apply map_eq. intros i.
  rewrite (lookup_foldr_insert (λ f, default VUndefined (o !! f))).
  destruct (decide (i ∈ fs)) as [Hin|Hin].
  - assert (Hi : i ∈ dom o) by (rewrite Hdom; by apply elem_of_list_to_set).
    apply elem_of_dom in Hi as [v Hv]. by rewrite Hv.
  - apply not_elem_of_dom. rewrite Hdom. by rewrite elem_of_list_to_set.
Qed.

Ltac in_fields :=
  cbn [fields]; repeat first [apply list_elem_of_here | apply list_elem_of_further].

Lemma spread_array_is_array v : is_array v = true → spread_array v = Ok v.
Proof. by destruct v. Qed.

Lemma has_shape_inv object o :
  has_shape object o = true →
  dom o = list_to_set (fst <$> fields object)
  ∧ ∀ f, (f, true) ∈ fields object → spread_array (default VUndefined (o !! f)) = Ok (default VUndefined (o !! f)).
Proof.
  unfold has_shape. intros [Hdom Hall]%andb_true_iff.
  split; [by apply bool_decide_eq_true in Hdom|].
  intros f Hf. apply spread_array_is_array.
  rewrite forallb_forall in Hall.
  apply (Hall (f, true)). by apply list_elem_of_In.
Qed.

Lemma section_has_shape_inv doc object :
  section_has_shape doc object = true →
  ∃ o, doc !! key_name object = Some (VObj o) ∧ has_shape object o = true.
Proof.
  unfold section_has_shape. destruct (doc !! key_name object) as [[]|]; try done.
  eauto.
Qed.

Context {P : Platform}.
Import UseObjectTransforms.

(** On a well-shaped document [defaultConfig] is the document itself. *)
Lemma defaultConfig_of_well_shaped doc :
  well_shaped doc = true →
  ∃ d, defaultConfig_of (VObj doc) = Ok d
       ∧ ∀ object, doc !! key_name object = Some (VObj (at_key d object)).
Proof.
  unfold well_shaped. cbn [forallb]. rewrite !andb_true_iff.
  intros (Ht & Hf & Hd & Hl & _).
  apply section_has_shape_inv in Ht as (o_t & Hot & [Hdt Hat]%has_shape_inv).
  apply section_has_shape_inv in Hf as (o_f & Hof & [Hdf Haf]%has_shape_inv).
  apply section_has_shape_inv in Hd as (o_d & Hod & [Hdd Had]%has_shape_inv).
  apply section_has_shape_inv in Hl as (o_l & Hol & [Hdl Hal]%has_shape_inv).
  cbn [key_name] in *.
  exists (mkPerObject o_t o_f o_d o_l). split; [|by intros []].
  unfold defaultConfig_of. cbn [get]. rewrite Hot, Hof, Hod, Hol.
  cbn [default from_option id mbind result_bind get].
  repeat (first [ rewrite Hat by in_fields
                | rewrite Haf by in_fields
                | rewrite Had by in_fields
                | rewrite Hal by in_fields ];
          cbn [mbind result_bind]).
  cbn [mret result_ret].
  rewrite <- !insert_empty.
  f_equal. f_equal; symmetry.
  - apply (object_eta ["position"; "rotation"; "scale"] o_t Hdt).
  - apply (object_eta ["position"; "rotation"; "scale"; "probeLength"] o_f Hdf).
  - apply (object_eta ["position"; "rotation"; "size"] o_d Hdd).
  - apply (object_eta ["position"; "rotation"; "scale"; "offsetZ"; "visible"] o_l Hdl).
Qed.

End ShapeFacts.

Section ResetProperties.
Context {P : Platform}.
Import UseObjectTransforms.

(** The transforms after a reset, whatever the document was. *)
Lemma transforms_resetToDefault now fetch object h :
  transforms (resetToDefault now fetch object h) =
  match response_json (fetch (config_url now)) ≫= defaultConfig_of with
  | Ok d =>
      if fetch (config_url now) is FetchRejects then transforms h
      else with_key (transforms h) object (at_key d object)
  | Throw _ => transforms h
  end.
Proof.
  unfold resetToDefault, await_fetch.
  destruct (fetch (config_url now)) as [|ok st [doc|]]; cbn [mbind result_bind response_json];
    try done.
  destruct (defaultConfig_of doc) as [d|e]; [|done].
  by rewrite transforms_syncToStorage, spread_empty_l.
Qed.

(** C6: a second [resetToDefault] of the same object, answered with the same
    response as the first, leaves the transforms as the first reset left
    them. *)
Theorem resetToDefault_idempotent now now' fetch fetch' object h :
  fetch' (config_url now') = fetch (config_url now) →
  transforms (resetToDefault now' fetch' object (resetToDefault now fetch object h))
  = transforms (resetToDefault now fetch object h).
Proof.
  intros Hsame.
  rewrite (transforms_resetToDefault now'), Hsame.
  rewrite (transforms_resetToDefault now).
  destruct (response_json (fetch (config_url now)) ≫= defaultConfig_of) as [d|e]; [|done].
  destruct (fetch (config_url now)); [done|].
  apply with_key_with_key.
Qed.

(** C8: [resetToDefault object] leaves the transforms of the other three
    objects as they were, and on a well-shaped document it puts the document's
    section for [object], whole, in the place of the object's transform,
    whatever that transform was. *)
Theorem resetToDefault_replaces_only_object now fetch object h :
  (∀ other, other ≠ object →
     at_key (transforms (resetToDefault now fetch object h)) other
     = at_key (transforms h) other)
  ∧ (∀ ok statusText doc,
       fetch (config_url now) = Response ok statusText (Some (VObj doc)) →
       Shape.well_shaped doc = true →
       doc !! key_name object
       = Some (VObj (at_key (transforms (resetToDefault now fetch object h)) object))).
Proof.
  split.
  - intros other Hne. rewrite transforms_resetToDefault.
    destruct (_ ≫= _) as [d|e]; [|done].
    destruct (fetch _); [done|].
    by apply at_key_with_key_ne.
  - intros ok st doc Hfetch Hshape.
    destruct (defaultConfig_of_well_shaped doc Hshape) as (d & Hd & Hsec).
    rewrite transforms_resetToDefault, Hfetch. cbn [response_json mbind result_bind].
    rewrite Hd, at_key_with_key. apply Hsec.
Qed.

End ResetProperties.

Section ConfigSyncProperties.
Context {P : Platform}.
Import ConfigSync Controllers.

Lemma readConfig_ok fetch statusText doc :
  fetch CONFIG_PATH = Response true statusText (Some doc) → readConfig fetch = Ok doc.
Proof. intros H. unfold readConfig, await_fetch. by rewrite H. Qed.



(** C5: importing [object] from a document (a mapping) without the key of
    [object] throws the key-not-found error, and the import button then leaves
    the configuration of every controller as it was. *)
Theorem import_missing_key_fails fetch statusText object (doc : jsobject) p :
  fetch CONFIG_PATH = Response true statusText (Some (VObj doc)) →
  doc !! key_name object = None →
  importFromConfig fetch object = Throw (KeyNotFound (key_name object))
  ∧ controllers (handleImport fetch object p) = controllers p.
Proof.
  intros Hfetch Hmissing.
  assert (Hthrow : importFromConfig fetch object = Throw (KeyNotFound (key_name object))).
  { unfold importFromConfig. rewrite (readConfig_ok _ _ _ Hfetch).
    cbn [mbind result_bind get]. by rewrite Hmissing. }
  split; [done|].
  unfold handleImport. by rewrite Hthrow.
Qed.

Lemma config_url_ne_CONFIG_PATH now :
  UseObjectTransforms.config_url now ≠ CONFIG_PATH.
Proof. unfold UseObjectTransforms.config_url, CONFIG_PATH. cbn. intros [=]. Qed.

(** C4: [readConfig] asks for the bare path, whatever the time: once a
    response for that path is stored, every later [readConfig] is answered
    from the store, whatever the server would say. So a per-object import
    that follows another one misses a change of the document made in between,
    where the cache-busted request of the hook's import sees it. *)
Theorem readConfig_is_not_cache_busted :
  (∀ cache stored origin origin',
     let cache' := <[CONFIG_PATH := stored]> cache in
     readConfig (HttpCache.fetch_via cache' origin)
     = readConfig (HttpCache.fetch_via cache' origin'))
  ∧ (let cache' := HttpCache.after_fetch CONFIG_PATH ∅ (Sample.serve Sample.document) in
     importFromConfig (HttpCache.fetch_via ∅ (Sample.serve Sample.document)) truck
       = Ok (VObj Sample.truck_section)
     ∧ importFromConfig (HttpCache.fetch_via cache' (Sample.serve Sample.document')) truck
       = Ok (VObj Sample.truck_section)
     ∧ Sample.document' !! "truck" ≠ Some (VObj Sample.truck_section)
     ∧ ∀ now,
         Sample.document' !! "truck"
         = Some (VObj (at_key (UseObjectTransforms.transforms
             (UseObjectTransforms.importConfig now
                (HttpCache.fetch_via cache' (Sample.serve Sample.document'))
                Sample.hook).1) truck))).
Proof.
  split.
  - intros cache stored origin origin' cache'. subst cache'.
    unfold readConfig, await_fetch, HttpCache.fetch_via.
    by rewrite lookup_insert_eq.
  - cbn zeta. split; [|split; [|split]].
    + by vm_compute.
    + by vm_compute.
    + intros Heq. vm_compute in Heq.
      discriminate Heq.
    + intros now. unfold UseObjectTransforms.importConfig, await_fetch.
      unfold HttpCache.fetch_via at 1.
      replace (HttpCache.after_fetch CONFIG_PATH ∅ (Sample.serve Sample.document)
                 !! UseObjectTransforms.config_url now) with (@None FetchOutcome).
      * by vm_compute.
      * symmetry. unfold HttpCache.after_fetch, HttpCache.fetch_via.
        rewrite lookup_empty. cbn [default from_option id Sample.serve].
        rewrite lookup_insert_ne by (apply not_eq_sym, config_url_ne_CONFIG_PATH).
        apply lookup_empty.
Qed.

End ConfigSyncProperties.

(** * Closed instances on the sample platform *)

Section Instances.
Import UseObjectTransforms ConfigSync Controllers.
#[local] Existing Instance Sample.platform.

(** The document is read at 1000 and again at 2000; the truck had been moved
    in the editor in between the load and the first reset. *)
Lemma resetToDefault_idempotent_witness :
  let fetch : Fetch := λ _, Sample.serve Sample.document in
  let h := updateTransform 500 truck Sample.moved Sample.hook in
  fetch (config_url 2000) = fetch (config_url 1000)
  ∧ transforms (resetToDefault 2000 fetch truck (resetToDefault 1000 fetch truck h))
    = transforms (resetToDefault 1000 fetch truck h).
Proof.
  intros fetch h. split; [reflexivity|].
  apply (resetToDefault_idempotent (P := Sample.platform) 1000 2000 fetch fetch truck h).
  reflexivity.
Defined.

Lemma resetToDefault_replaces_only_object_witness :
  let fetch : Fetch := λ _, Sample.serve Sample.document in
  let h := updateTransform 500 truck Sample.moved Sample.hook in
  (logo ≠ truck ∧ Shape.well_shaped Sample.document = true)
  ∧ at_key (transforms (resetToDefault 1000 fetch truck h)) logo = at_key (transforms h) logo
  ∧ Sample.document !! key_name truck
    = Some (VObj (at_key (transforms (resetToDefault 1000 fetch truck h)) truck)).
Proof.
  intros fetch h.
  assert (Hne : logo ≠ truck) by discriminate.
  assert (Hshape : Shape.well_shaped Sample.document = true) by (vm_compute; reflexivity).
  destruct (resetToDefault_replaces_only_object (P := Sample.platform) 1000 fetch truck h)
    as [Hframe Hsection].
  split; [split; assumption|]. split.
  - apply Hframe. exact Hne.
  - apply (Hsection true "OK"%string Sample.document); [reflexivity | exact Hshape].
Defined.



Lemma import_missing_key_fails_witness :
  let doc : jsobject := delete "logo" Sample.document in
  let fetch : Fetch := λ _, Sample.serve doc in
  (fetch CONFIG_PATH = Response true "OK" (Some (VObj doc)) ∧ doc !! key_name logo = None)
  ∧ importFromConfig fetch logo = Throw (KeyNotFound (key_name logo))
  ∧ controllers (handleImport fetch logo Sample.page) = controllers Sample.page.
Proof.
  intros doc fetch.
  assert (Hmissing : doc !! key_name logo = None) by (vm_compute; reflexivity).
  split; [split; [reflexivity | exact Hmissing]|].
  apply (import_missing_key_fails fetch "OK" logo doc Sample.page);
    [reflexivity | exact Hmissing].
Defined.

(** A main page that wrote its timestamp at 2000, polled at 6000; and the
    fresh editor, which has no timestamp to read. *)
Lemma checkConnection_reports_witness :
  let h := localStorage_setItem LAST_MAIN_PAGE_UPDATE "2000" Sample.hook in
  (localStorage h !! LAST_MAIN_PAGE_UPDATE = Some "2000"%string
   ∧ localStorage Sample.hook !! LAST_MAIN_PAGE_UPDATE = None)
  ∧ connectionStatus (checkConnection 6000 h) = connected
  ∧ checkConnection 6000 Sample.hook = Sample.hook.
Proof.
  intros h.
  assert (Hstored : localStorage h !! LAST_MAIN_PAGE_UPDATE = Some "2000"%string)
    by (vm_compute; reflexivity).
  assert (Habsent : localStorage Sample.hook !! LAST_MAIN_PAGE_UPDATE = None)
    by (vm_compute; reflexivity).
  split; [split; assumption|]. split.
  - destruct (checkConnection_reports (P := Sample.platform) 6000 h) as [Hpresent _].
    destruct (Hpresent "2000"%string Hstored) as [[_ Hconnected] _]; [discriminate|].
    apply Hconnected. exists 2000. split; [vm_compute; reflexivity | lia].
  - destruct (checkConnection_reports (P := Sample.platform) 6000 Sample.hook) as [_ Habs].
    apply Habs. left. exact Habsent.
Defined.

(** C7 as stated fails: the editor was connected, the main page's timestamp
    is then removed from storage, and the next poll still reports connected. *)
Lemma checkConnection_absent_not_disconnected :
  let h := setConnectionStatus connected Sample.hook in
  localStorage h !! LAST_MAIN_PAGE_UPDATE = None
  ∧ connectionStatus (checkConnection (P := Sample.platform) 6000 h) ≠ disconnected.
Proof. split; [vm_compute; reflexivity | vm_compute; discriminate]. Qed.

End Instances.

(** * Binary64 rounding and the degree round trip *)

Section Binary64Properties.
Import ObjectControls Binary64.

Ltac gen_pow :=
  repeat match goal with
  | |- context [2 ^ ?e] => let x := fresh "pw" in set (x := 2 ^ e) in *; clearbody x
  | H : context [2 ^ ?e] |- _ => let x := fresh "pw" in set (x := 2 ^ e) in *; clearbody x
  end.

Lemma digits2_pos_bounds (m : positive) :
  2 ^ (Zpos (digits2_pos m) - 1) <= Zpos m < 2 ^ Zpos (digits2_pos m).
Proof.
  induction m as [m IH|m IH|]; cbn [digits2_pos].
  - rewrite Pos2Z.inj_succ. change (Zpos m~1) with (2 * Zpos m + 1).
    replace (Z.succ (Zpos (digits2_pos m)) - 1) with (Z.succ (Zpos (digits2_pos m) - 1)) by lia.
    rewrite !Z.pow_succ_r by lia. gen_pow. lia.
  - rewrite Pos2Z.inj_succ. change (Zpos m~0) with (2 * Zpos m).
    replace (Z.succ (Zpos (digits2_pos m)) - 1) with (Z.succ (Zpos (digits2_pos m) - 1)) by lia.
    rewrite !Z.pow_succ_r by lia. gen_pow. lia.
  - cbn. lia.
Qed.

Lemma Zdigits2_le (m k : Z) : 0 <= m < 2 ^ k -> 0 <= k -> Zdigits2 m <= k.
Proof.
  intros [Hm Hlt] Hk. destruct m as [|p|p]; cbn [Zdigits2]; [lia| |lia].
  destruct (digits2_pos_bounds p) as [Hlo _].
  destruct (Z.le_gt_cases (Zpos (digits2_pos p)) k) as [|Hgt]; [done|].
  assert (2 ^ k <= 2 ^ (Zpos (digits2_pos p) - 1)) by (apply Z.pow_le_mono_r; lia).
  lia.
Qed.

Lemma shr_m_shr_1 mrs : 0 <= shr_m mrs -> shr_m (shr_1 mrs) = shr_m mrs / 2.
Proof.
  destruct mrs as [m r s]. cbn [shr_m]. intros Hm.
  destruct m as [|q|q]; [reflexivity| |lia].
  destruct q as [p|p|]; cbn [shr_1 shr_m].
  - change (Zpos p~1) with (2 * Zpos p + 1). apply (Z.div_unique _ _ _ 1); lia.
  - change (Zpos p~0) with (2 * Zpos p). apply (Z.div_unique _ _ _ 0); lia.
  - reflexivity.
Qed.

Lemma shr_m_iter_pos (p : positive) : forall mrs,
  0 <= shr_m mrs -> shr_m (SpecFloat.iter_pos shr_1 p mrs) = shr_m mrs / 2 ^ Zpos p.
Proof.
  induction p as [p IH|p IH|]; intros mrs Hm; cbn [SpecFloat.iter_pos].
  - assert (H1 : 0 <= shr_m (shr_1 mrs)) by (rewrite shr_m_shr_1 by done; apply Z.div_pos; lia).
    assert (H2 : 0 <= shr_m (SpecFloat.iter_pos shr_1 p (shr_1 mrs)))
      by (rewrite IH by done; apply Z.div_pos; lia).
    rewrite IH, IH, shr_m_shr_1 by done.
    rewrite !Z.div_div by lia. f_equal.
    rewrite Pos2Z.inj_xI, <- !Z.pow_add_r, <- Z.pow_succ_r by lia. f_equal. lia.
  - assert (H2 : 0 <= shr_m (SpecFloat.iter_pos shr_1 p mrs))
      by (rewrite IH by done; apply Z.div_pos; lia).
    rewrite IH, IH by done.
    rewrite !Z.div_div by lia. f_equal.
    rewrite Pos2Z.inj_xO, <- !Z.pow_add_r by lia. f_equal. lia.
  - by rewrite shr_m_shr_1.
Qed.

Lemma round_nearest_even_bounds m l : m <= round_nearest_even m l <= m + 1.
Proof.
  destruct l as [|[]]; cbn [round_nearest_even]; try lia.
  destruct (Z.even m); lia.
Qed.

Lemma shr_nonpos mrs e n : n <= 0 -> shr mrs e n = (mrs, e).
Proof. by destruct n. Qed.

Lemma binary_round_aux_exact s (mx : positive) ex :
  let E := fexp prec emax (Zpos (digits2_pos mx) + ex) in
  (E <= ex ∧ binary_round_aux prec emax s (Zpos mx) ex loc_Exact = build s (Zpos mx) ex)
  ∨ (ex < E ∧ ∃ m3 k, 0 <= m3 ∧ (k = E - ex ∨ k = E - ex + 1) ∧
       binary_round_aux prec emax s (Zpos mx) ex loc_Exact = build s m3 (ex + k) ∧
       - 2 * 2 ^ (E - ex) <= m3 * 2 ^ k - Zpos mx <= 2 ^ (E - ex)).
Proof.
  intros E. unfold binary_round_aux, shr_fexp. cbn [Zdigits2]. fold E.
  destruct (Z.le_gt_cases E ex) as [Hle|Hgt].
  - left. split; [done|].
    rewrite shr_nonpos by lia. cbn [shr_record_of_loc shr_m loc_of_shr_record round_nearest_even Zdigits2].
    fold E. by rewrite shr_nonpos by lia.
  - right. split; [lia|].
    destruct (E - ex) as [|p|p] eqn:Hn; [lia| |lia].
    cbn [shr]. rewrite <- Hn.
    set (mrs := SpecFloat.iter_pos shr_1 p (shr_record_of_loc (Zpos mx) loc_Exact)).
    assert (Hm1 : shr_m mrs = Zpos mx / 2 ^ (E - ex)).
    { subst mrs. rewrite shr_m_iter_pos by (cbn; lia). by rewrite Hn. }
    set (m2 := round_nearest_even (shr_m mrs) (loc_of_shr_record mrs)).
    assert (Hm2 : shr_m mrs <= m2 <= shr_m mrs + 1) by apply round_nearest_even_bounds.
    replace (ex + (E - ex)) with E by lia.
    destruct (digits2_pos_bounds mx) as [_ Hmx].
    assert (HE : Zpos (digits2_pos mx) + ex - prec <= E ∧ 3 - emax - prec <= E).
    { subst E. unfold fexp, emin. lia. }
    assert (Hpow : 0 < 2 ^ (E - ex)) by (apply Z.pow_pos_nonneg; lia).
    assert (Hdiv : 2 ^ (E - ex) * shr_m mrs <= Zpos mx < 2 ^ (E - ex) * shr_m mrs + 2 ^ (E - ex)).
    { rewrite Hm1. pose proof (Z.mul_div_le (Zpos mx) _ Hpow).
      pose proof (Z.mul_succ_div_gt (Zpos mx) _ Hpow). lia. }
    assert (Hm1lt : shr_m mrs < 2 ^ prec).
    { rewrite Hm1. apply Z.div_lt_upper_bound; [done|].
      rewrite <- Z.pow_add_r by (unfold prec; lia).
      eapply Z.lt_le_trans; [exact Hmx|]. apply Z.pow_le_mono_r; unfold prec in *; lia. }
    assert (Hm1ge : 0 <= shr_m mrs) by (rewrite Hm1; apply Z.div_pos; lia).
    assert (Hd2 : Zdigits2 m2 <= prec + 1).
    { apply Zdigits2_le; [|unfold prec; lia]. split; [lia|].
      rewrite Z.pow_add_r by (unfold prec; lia). change (2 ^ 1) with 2. lia. }
    assert (Hn2 : fexp prec emax (Zdigits2 m2 + E) - E <= 1).
    { unfold fexp, emin. unfold prec in *. lia. }
    destruct (Z.le_gt_cases (fexp prec emax (Zdigits2 m2 + E) - E) 0) as [Hn2'|Hn2'].
    + exists m2, (E - ex). split; [lia|]. split; [by left|].
      rewrite shr_nonpos by done. cbn [shr_record_of_loc shr_m].
      replace (ex + (E - ex)) with E by lia. split; [done|].
      gen_pow. nia.
    + exists (m2 / 2), (E - ex + 1). split; [apply Z.div_pos; lia|]. split; [by right|].
      replace (fexp prec emax (Zdigits2 m2 + E) - E) with 1 by lia.
      cbn [shr SpecFloat.iter_pos]. rewrite shr_m_shr_1 by (cbn; lia).
      cbn [shr_record_of_loc shr_m].
      replace (ex + (E - ex + 1)) with (E + 1) by lia. split; [done|].
      rewrite Z.pow_add_r by lia. change (2 ^ 1) with 2.
      pose proof (Z.mul_div_le m2 2 eq_refl).
      pose proof (Z.mul_succ_div_gt m2 2 eq_refl).
      gen_pow. nia.
Qed.

Lemma B_pos z : (0 < B z)%Q.
Proof. apply Qpower_0_lt. reflexivity. Qed.

Lemma B_add a b : (B (a + b) == B a * B b)%Q.
Proof. apply Qpower_plus. discriminate. Qed.

Lemma B_le a b : a <= b -> (B a <= B b)%Q.
Proof. intros. apply Qpower_le_compat_l; [done|discriminate]. Qed.

Lemma B_le_inv a b : (B a <= B b)%Q -> a <= b.
Proof. intros. by apply (Qpower_le_compat_l_inv 2). Qed.

Lemma B_inject n : 0 <= n -> (inject_Z (2 ^ n) == B n)%Q.
Proof. intros. by apply Zpower_Qpower. Qed.

Lemma mag_build s m e :
  0 <= m -> e <= emax - prec ->
  signed s (build s m e) ∧ (mag (build s m e) == inject_Z m * B e)%Q.
Proof.
  intros Hm He. destruct m as [|p|p]; [| |lia]; cbn [build].
  - split; [by left|]. cbn [mag]. ring.
  - rewrite (proj2 (Z.leb_le _ _) He). split; [right; eauto|]. reflexivity.
Qed.

Lemma inject_Z_pos_ge1 (p : positive) : (1 <= inject_Z (Zpos p))%Q.
Proof. change 1%Q with (inject_Z 1). rewrite <- Zle_Qle. lia. Qed.

(** The exponent is small when the value is. *)
Lemma exponent_bound (p : positive) e c :
  (inject_Z (Zpos p) * B e <= B c)%Q -> e <= c.
Proof.
  intros H. apply B_le_inv.
  pose proof (B_pos e). pose proof (inject_Z_pos_ge1 p).
  nra.
Qed.

Lemma round_error s (mx : positive) ex :
  let x := (inject_Z (Zpos mx) * B ex)%Q in
  (x <= B 10)%Q ->
  signed s (binary_round_aux prec emax s (Zpos mx) ex loc_Exact)
  ∧ (Qabs (mag (binary_round_aux prec emax s (Zpos mx) ex loc_Exact) - x)
     <= B (-51) * x + B (-1073))%Q.
Proof.
  intros x Hx.
  assert (Hx0 : (0 < x)%Q).
  { subst x. pose proof (B_pos ex). pose proof (inject_Z_pos_ge1 mx). nra. }
  pose proof (B_pos (-51)) as Hb51. pose proof (B_pos (-1073)) as Hb1073.
  assert (Hex : ex <= 10) by (by apply (exponent_bound mx)).
  destruct (digits2_pos_bounds mx) as [Hdlo Hdhi].
  set (d := Zpos (digits2_pos mx)) in *.
  assert (Hdx : (B (d - 1) * B ex <= x)%Q).
  { subst x. apply Qmult_le_compat_r; [|apply Qlt_le_weak, B_pos].
    rewrite <- B_inject by lia. by rewrite <- Zle_Qle. }
  assert (Hdex : d - 1 + ex <= 10).
  { apply B_le_inv. rewrite B_add. lra. }
  destruct (binary_round_aux_exact s mx ex) as [[HE ->]|(HE & m3 & k & Hm3 & Hk & -> & Herr)];
    fold d in HE.
  - destruct (mag_build s (Zpos mx) ex) as [Hs Hm]; [lia|unfold emax, prec; lia|].
    split; [done|]. rewrite Hm. fold x.
    assert (Hz : (x - x == 0)%Q) by ring.
    rewrite Hz. change (Qabs 0) with 0%Q.
    apply Qlt_le_weak. apply (Qlt_le_trans _ (B (-51) * x + 0)%Q).
    { rewrite Qplus_0_r. apply Qmult_lt_0_compat; [apply B_pos|done]. }
    apply Qplus_le_r. apply Qlt_le_weak, B_pos.
  - fold d in Hk, Herr. set (E := fexp prec emax (d + ex)) in *.
    assert (HEv : E = d + ex - 53 ∨ E = -1074).
    { subst E. unfold fexp, emin, prec, emax. lia. }
    destruct (mag_build s m3 (ex + k)) as [Hs Hm]; [lia|unfold emax, prec; lia|].
    split; [done|]. rewrite Hm.
    assert (Hk0 : 0 <= k) by lia.
    rewrite B_add, <- (B_inject k) by done.
    assert (Hdiff : (inject_Z m3 * (B ex * inject_Z (2 ^ k)) - x
                     == inject_Z (m3 * 2 ^ k - Zpos mx) * B ex)%Q).
    { subst x. rewrite <- Z.add_opp_r, inject_Z_plus, inject_Z_mult, inject_Z_opp. ring. }
    rewrite Hdiff.
    destruct Herr as [Hlo Hhi].
    rewrite Zle_Qle in Hlo, Hhi.
    rewrite inject_Z_mult in Hlo. change (inject_Z (-2)) with (-2 # 1)%Q in Hlo.
    rewrite (B_inject (E - ex)) in Hlo, Hhi by lia.
    pose proof (B_pos ex) as Hbex. pose proof (B_pos (E - ex)) as HbE.
    assert (Hbound : (2 * (B (E - ex) * B ex) <= B (-51) * x + B (-1073))%Q).
    { rewrite <- B_add. replace (E - ex + ex) with E by lia.
      destruct HEv as [->| ->].
      - replace (d + ex - 53) with (-52 + (d - 1 + ex)) by lia.
        rewrite 2!B_add.
        change (B (-52)) with (1 # 4503599627370496)%Q.
        change (B (-51)) with (1 # 2251799813685248)%Q in *. lra.
      - assert (Hsub : (B (-1073) == 2 * B (-1074))%Q) by apply (B_add 1 (-1074)).
        rewrite Hsub.
        assert (Hp : (0 < B (-51) * x)%Q) by (apply Qmult_lt_0_compat; [apply B_pos|done]).
        revert Hp. generalize (B (-51) * x)%Q (B (-1074)). intros; lra. }
    apply Qabs_Qle_condition.
    set (t := inject_Z (m3 * 2 ^ k - Zpos mx)) in *.
    split; nra.
Qed.

Lemma to_Q_signed s x : signed s x -> (to_Q x == if s then - mag x else mag x)%Q.
Proof.
  intros [->|(m & e & ->)]; cbn [to_Q mag].
  - destruct s; ring.
  - destruct s; cbn [cond_Zopp]; [|reflexivity].
    change (- Zpos m) with (Z.opp (Zpos m)). rewrite inject_Z_opp. ring.
Qed.

Lemma signed_is_finite s x : signed s x -> is_finite x = true.
Proof. by intros [->|(m & e & ->)]. Qed.

Lemma mag_nonneg x : (0 <= mag x)%Q.
Proof.
  destruct x as [| | |s m e]; cbn [mag]; try apply Qle_refl.
  pose proof (B_pos e). pose proof (inject_Z_pos_ge1 m). nra.
Qed.

Lemma mul_error s x (mc : positive) (ec : Z) :
  let c := S754_finite false mc ec in
  signed s x ->
  (mag x * mag c <= B 10)%Q ->
  signed s (mul x c)
  ∧ (Qabs (mag (mul x c) - mag x * mag c) <= B (-51) * (mag x * mag c) + B (-1073))%Q.
Proof.
  intros c [->|(m & e & ->)] Hsmall; subst c; unfold mul; cbn [SFmul].
  - replace (xorb s false) with s by (by destruct s).
    split; [by left|]. cbn [mag].
    assert (Hz : (0 - 0 * (inject_Z (Zpos mc) * B ec) == 0)%Q) by ring.
    assert (Hz' : (0 * (inject_Z (Zpos mc) * B ec) == 0)%Q) by ring.
    rewrite Hz, Hz'. change (Qabs 0) with 0%Q.
    pose proof (B_pos (-1073)). lra.
  - replace (xorb s false) with s by (by destruct s).
    assert (Hprod : (inject_Z (Zpos (m * mc)) * B (e + ec)
                     == mag (S754_finite s m e) * mag (S754_finite false mc ec))%Q).
    { cbn [mag]. rewrite Pos2Z.inj_mul, inject_Z_mult, B_add. ring. }
    destruct (round_error s (m * mc) (e + ec)) as [Hs Herr].
    { cbn zeta. rewrite Hprod. exact Hsmall. }
    split; [exact Hs|]. cbn zeta in Herr. rewrite Hprod in Herr. exact Herr.
Qed.

Lemma literal_180 : literal 180 = S754_finite false plus_180 (-45).
Proof. reflexivity. Qed.

Lemma literal_minus_180 : literal (-180) = S754_finite true plus_180 (-45).
Proof. reflexivity. Qed.

Lemma valid_mantissa_bound m e :
  bounded prec emax m e = true -> Zpos m < 2 ^ 53.
Proof.
  unfold bounded, canonical_mantissa. intros [Hc _]%andb_true_iff.
  apply Z.eqb_eq in Hc. unfold fexp, emin, prec, emax in Hc.
  destruct (digits2_pos_bounds m) as [_ Hhi].
  eapply Z.lt_le_trans; [exact Hhi|]. apply Z.pow_le_mono_r; lia.
Qed.

Lemma mag_le_180 s m e :
  bounded prec emax m e = true ->
  e < -45 ∨ (e = -45 ∧ (m <= plus_180)%positive) ->
  (mag (S754_finite s m e) <= 180)%Q.
Proof.
  intros Hb Hcmp. cbn [mag]. apply valid_mantissa_bound in Hb.
  destruct Hcmp as [He|[-> Hm]].
  - assert (HB : (B e <= B (-46))%Q) by (apply B_le; lia).
    assert (Hm : (inject_Z (Zpos m) <= inject_Z (2 ^ 53))%Q) by (rewrite <- Zle_Qle; lia).
    pose proof (B_pos e). pose proof (inject_Z_pos_ge1 m).
    change (B (-46)) with (1 # 70368744177664)%Q in HB.
    change (inject_Z (2 ^ 53)) with (9007199254740992 # 1)%Q in Hm.
    clear Hb He.
    nra.
  - assert (Hm' : (inject_Z (Zpos m) <= inject_Z (Zpos plus_180))%Q)
      by (rewrite <- Zle_Qle; by apply Pos2Z.pos_le_pos).
    change (B (-45)) with (1 # 35184372088832)%Q.
    change (inject_Z (Zpos plus_180)) with (6333186975989760 # 1)%Q in Hm'.
    clear Hm.
    lra.
Qed.

Lemma in_range_signed D :
  valid_binary prec emax D = true ->
  SFleb (literal (-180)) D = true -> SFleb D (literal 180) = true ->
  ∃ s, signed s D ∧ (mag D <= 180)%Q.
Proof.
  rewrite literal_180, literal_minus_180.
  destruct D as [s|s| |s m e]; intros Hvalid Hlo Hhi.
  - exists s. split; [left; reflexivity|]. cbn [mag]. discriminate.
  - destruct s; [discriminate Hlo|discriminate Hhi].
  - discriminate Hlo.
  - exists s. split; [right; eauto|].
    cbn [valid_binary] in Hvalid. apply (mag_le_180 s m e Hvalid). clear Hvalid.
    destruct s; unfold SFleb in Hlo, Hhi; cbn [SFcompare] in Hlo, Hhi.
    + clear Hhi. destruct (Z.compare_spec (-45) e) as [Heq|Hlt|Hgt].
      * subst e. right. split; [reflexivity|].
        unfold Pos.le. rewrite Pos.compare_antisym. unfold Pos.compare.
        intros Hc. destruct (PosDef.Pos.compare_cont Eq plus_180 m) eqn:Hd;
          [discriminate Hc|discriminate Hlo|discriminate Hc].
      * discriminate Hlo.
      * clear Hlo. left. lia.
    + clear Hlo. destruct (Z.compare_spec e (-45)) as [Heq|Hlt|Hgt].
      * subst e. right. split; [reflexivity|].
        unfold Pos.le, Pos.compare.
        intros Hc. rewrite Hc in Hhi. discriminate Hhi.
      * clear Hhi. left. lia.
      * discriminate Hhi.
Qed.

Lemma radians_per_degree_eq : div Math_PI (literal 180) = radians_per_degree.
Proof. vm_compute. reflexivity. Qed.

Lemma degrees_per_radian_eq : div (literal 180) Math_PI = degrees_per_radian.
Proof. vm_compute. reflexivity. Qed.

Lemma mag_radians_per_degree :
  (mag radians_per_degree == 5030569068109113 # 288230376151711744)%Q.
Proof. vm_compute. reflexivity. Qed.

Lemma mag_degrees_per_radian :
  (mag degrees_per_radian == 8063664102031864 # 140737488355328)%Q.
Proof. vm_compute. reflexivity. Qed.

Lemma B_minus_51 : (B (-51) == 1 # 2251799813685248)%Q.
Proof. vm_compute. reflexivity. Qed.

Lemma B_10 : (B 10 == 1024)%Q.
Proof. vm_compute. reflexivity. Qed.

Lemma B_minus_1073_small : (0 < B (-1073) <= 1 # 1267650600228229401496703205376)%Q.
Proof.
  split; [apply B_pos|].
  assert (H : (B (-100) == 1 # 1267650600228229401496703205376)%Q) by (vm_compute; reflexivity).
  rewrite <- H. apply B_le. lia.
Qed.

(** X1: a degree value in [-180, 180] that [updateRotation] turns into
    radians and the slider turns back into degrees comes back finite and
    within 1e-6 of itself. *)
Theorem degrees_roundtrip D :
  valid_binary prec emax D = true ->
  SFleb (literal (-180)) D = true -> SFleb D (literal 180) = true ->
  is_finite (to_degrees (to_radians D)) = true
  ∧ (Qabs (to_Q (to_degrees (to_radians D)) - to_Q D) <= 1 # 1000000)%Q.
Proof.
  intros Hvalid Hlo Hhi.
  destruct (in_range_signed D Hvalid Hlo Hhi) as (s & Hs & HD).
  unfold to_degrees, to_radians.
  rewrite radians_per_degree_eq, degrees_per_radian_eq.
  pose proof (mag_nonneg D) as HD0.
  pose proof B_minus_1073_small as [Hd0 Hd1].
  destruct (mul_error s D 5030569068109113 (-58) Hs) as [Hs1 He1].
  { fold radians_per_degree. rewrite mag_radians_per_degree, B_10. lra. }
  fold radians_per_degree in Hs1, He1.
  set (r1 := mul D radians_per_degree) in *.
  pose proof (mag_nonneg r1) as Hr0.
  rewrite mag_radians_per_degree, B_minus_51 in He1.
  apply Qabs_Qle_condition in He1.
  destruct (mul_error s r1 8063664102031864 (-47) Hs1) as [Hs2 He2].
  { fold degrees_per_radian. rewrite mag_degrees_per_radian, B_10. lra. }
  fold degrees_per_radian in Hs2, He2.
  set (r2 := mul r1 degrees_per_radian) in *.
  rewrite mag_degrees_per_radian, B_minus_51 in He2.
  apply Qabs_Qle_condition in He2.
  split; [by apply (signed_is_finite s)|].
  rewrite (to_Q_signed s r2 Hs2), (to_Q_signed s D Hs).
  apply Qabs_Qle_condition.
  destruct s; lra.
Qed.

End Binary64Properties.

(** * Further properties of the hook *)

Section HookEffects.
Context {P : Platform}.
Import UseObjectTransforms.

(** The state after an update, field by field. *)
Lemma updateTransform_state now object updates h :
  let h' := updateTransform now object updates h in
  let merged := spread (at_key (transforms h) object) updates in
  let serialized := JSON_stringify (VObj merged) None in
  transforms h' = with_key (transforms h) object merged
  ∧ localStorage h' =
      <[CONTROLLER_UPDATE_TIMESTAMP := Number_toString now]>
        (<[storageKey object := serialized]> (localStorage h))
  ∧ dispatched h' =
      dispatched h ++ [mkStorageEvent (storageKey object) serialized location_href].
Proof.
  cbn zeta. unfold updateTransform.
  cbn [transforms localStorage dispatched set_transforms].
  rewrite at_key_with_key.
  destruct (syncToStorage_mirror now (storageKey object)
              (VObj (spread (at_key (transforms h) object) updates)) h) as [-> ->].
  done.
Qed.

Lemma insert2_absorb (m : gmap string string) a b x y x' y' :
  <[a:=x']> (<[b:=y']> (<[a:=x]> (<[b:=y]> m))) = <[a:=x']> (<[b:=y']> m).
Proof.
  apply map_eq. intros i. rewrite !lookup_insert.
  repeat case_decide; done.
Qed.

Lemma spread_assoc (s u u' : jsobject) : spread (spread s u) u' = spread s (spread u u').
Proof. unfold spread. apply (assoc_L (∪)). Qed.

(** X3: two updates of the same object in a row leave the transforms and the
    storage as one update with the second record spread over the first does
    (later fields win). *)
Theorem updateTransform_twice now now' object updates updates' h :
  let twice := updateTransform now' object updates' (updateTransform now object updates h) in
  let once := updateTransform now' object (spread updates updates') h in
  transforms twice = transforms once
  ∧ localStorage twice = localStorage once.
Proof.
  cbn zeta.
  destruct (updateTransform_state now' object updates' (updateTransform now object updates h))
    as (Ht2 & Hl2 & Hd2).
  destruct (updateTransform_state now object updates h) as (Ht1 & Hl1 & Hd1).
  destruct (updateTransform_state now' object (spread updates updates') h)
    as (Ht & Hl & Hd).
  cbn zeta in *.
  rewrite Ht2, Hl2, Ht, Hl, Ht1, Hl1.
  rewrite at_key_with_key, with_key_with_key, spread_assoc.
  split; [done|]. apply insert2_absorb.
Qed.

Lemma bind_throws {A B} (m : result A) (k : A → result B) :
  (∀ a, ∃ e, k a = Throw e) → ∃ e, m ≫= k = Throw e.
Proof. intros Hk. destruct m as [a|e]; [apply Hk|by exists e]. Qed.

Lemma bind_Ok {A B} (a : A) (k : A → result B) : Ok a ≫= k = k a.
Proof. reflexivity. Qed.

Lemma bind_Throw {A B} e (k : A → result B) : Throw e ≫= k = Throw e.
Proof. reflexivity. Qed.

Lemma get_object (o : jsobject) k : get (VObj o) k = Ok (default VUndefined (o !! k)).
Proof. reflexivity. Qed.

Lemma get_undefined k : get VUndefined k = Throw TypeError.
Proof. reflexivity. Qed.

(** Without one of the four sections [defaultConfig] cannot be built. *)
Lemma defaultConfig_of_missing_section (doc : jsobject) missing :
  doc !! key_name missing = None → ∃ e, defaultConfig_of (VObj doc) = Throw e.
Proof.
  intros Hmissing. unfold defaultConfig_of.
  destruct missing; cbn [key_name] in Hmissing;
    repeat first
      [ rewrite get_object
      | rewrite Hmissing; cbn [default from_option id]
      | rewrite get_undefined
      | rewrite bind_Ok
      | rewrite bind_Throw
      | by eexists
      | apply bind_throws; intros ? ].
Qed.

(** X4: [resetToDefault] rebuilds the defaults of all four objects before it
    resets one: when the fetched document lacks the section of any object -
    the one being reset or another - the reset fails, the only effect being
    the alert. *)
Theorem resetToDefault_needs_all_sections now fetch ok statusText (doc : jsobject)
    missing object h :
  fetch (config_url now) = Response ok statusText (Some (VObj doc)) →
  doc !! key_name missing = None →
  resetToDefault now fetch object h = alert "Reset failed. Check console for details." h.
Proof.
  intros Hfetch Hmissing.
  destruct (defaultConfig_of_missing_section doc missing Hmissing) as [e He].
  unfold resetToDefault, await_fetch. rewrite Hfetch.
  cbn [mbind result_bind response_json]. by rewrite He.
Qed.

(** X5: every [resetToDefault] either fails, the alert being its only effect,
    or raises no alert, writes the serialisation of the transform it installed
    for [object] to the object's storage slot, writes the timestamp and
    dispatches one storage event carrying the slot and that serialisation. *)
Theorem resetToDefault_mirrors_or_alerts now fetch object h :
  let h' := resetToDefault now fetch object h in
  let serialized := JSON_stringify (VObj (at_key (transforms h') object)) None in
  h' = alert "Reset failed. Check console for details." h
  ∨ (localStorage h' !! storageKey object = Some serialized
     ∧ localStorage h' !! CONTROLLER_UPDATE_TIMESTAMP = Some (Number_toString now)
     ∧ dispatched h' =
         dispatched h ++ [mkStorageEvent (storageKey object) serialized location_href]
     ∧ alerts h' = alerts h).
Proof.
  cbn zeta. unfold resetToDefault.
  destruct (_ ≫= _) as [d|e]; [right|by left].
  rewrite spread_empty_l, transforms_syncToStorage.
  cbn [transforms set_transforms]. rewrite at_key_with_key.
  destruct (syncToStorage_slot now object (VObj (at_key d object))
    (set_transforms (with_key (transforms h) object (at_key d object)) h)) as [-> ->].
  done.
Qed.

End HookEffects.

Section ImportProperties.
Context {P : Platform}.
Import UseObjectTransforms Shape.

Lemma per_object_ext {A} (t t' : PerObject A) :
  (∀ object, at_key t object = at_key t' object) → t = t'.
Proof.
  intros H. destruct t, t'.
  pose proof (H truck). pose proof (H fuelSensor).
  pose proof (H telematicsDisplay). pose proof (H logo).
  cbn in *. congruence.
Qed.

Lemma with_key_at_key {A} (t : PerObject A) object : with_key t object (at_key t object) = t.
Proof. by destruct t, object. Qed.

Lemma section_has_fields_inv doc object :
  section_has_fields doc object = true →
  ∃ o, doc !! key_name object = Some (VObj o)
       ∧ dom o = list_to_set (fst <$> fields object).
Proof.
  unfold section_has_fields, has_fields.
  destruct (doc !! key_name object) as [[]|]; try done.
  intros ?%bool_decide_eq_true. eauto.
Qed.

(** On a document with the right fields the imported transforms are the
    sections of the document. *)
Lemma transforms_of_config_well_fielded doc :
  well_fielded doc = true →
  ∃ t, transforms_of_config (VObj doc) = Ok t
       ∧ ∀ object, doc !! key_name object = Some (VObj (at_key t object)).
Proof.
  unfold well_fielded. cbn [forallb]. rewrite !andb_true_iff.
  intros (Ht & Hf & Hd & Hl & _).
  apply section_has_fields_inv in Ht as (o_t & Hot & Hdt).
  apply section_has_fields_inv in Hf as (o_f & Hof & Hdf).
  apply section_has_fields_inv in Hd as (o_d & Hod & Hdd).
  apply section_has_fields_inv in Hl as (o_l & Hol & Hdl).
  cbn [key_name] in *.
  exists (mkPerObject o_t o_f o_d o_l). split; [|by intros []].
  unfold transforms_of_config.
  repeat first [ rewrite get_object | rewrite bind_Ok
               | rewrite Hot | rewrite Hof | rewrite Hod | rewrite Hol ];
    cbn [default from_option id].
  repeat first [ rewrite get_object | rewrite bind_Ok ].
  cbn [mret result_ret].
  rewrite <- !insert_empty.
  f_equal. f_equal; symmetry.
  - apply (object_eta ["position"; "rotation"; "scale"] o_t Hdt).
  - apply (object_eta ["position"; "rotation"; "scale"; "probeLength"] o_f Hdf).
  - apply (object_eta ["position"; "rotation"; "size"] o_d Hdd).
  - apply (object_eta ["position"; "rotation"; "scale"; "offsetZ"; "visible"] o_l Hdl).
Qed.

Lemma well_shaped_well_fielded doc : well_shaped doc = true → well_fielded doc = true.
Proof.
  unfold well_shaped, well_fielded. rewrite !forallb_forall.
  intros H object Hin. specialize (H object Hin).
  unfold section_has_shape, section_has_fields, has_shape, has_fields in *.
  destruct (doc !! key_name object) as [[]|]; try done.
  by apply andb_true_iff in H as [? _].
Qed.

Lemma importConfig_well_fielded now fetch ok statusText (doc : jsobject) h :
  fetch (config_url now) = Response ok statusText (Some (VObj doc)) →
  well_fielded doc = true →
  ∃ t, importConfig now fetch h = (set_transforms t h, true)
       ∧ ∀ object, doc !! key_name object = Some (VObj (at_key t object)).
Proof.
  intros Hfetch Hfields.
  destruct (transforms_of_config_well_fielded doc Hfields) as (t & Ht & Hsec).
  exists t. split; [|done].
  unfold importConfig, await_fetch. rewrite Hfetch.
  cbn [mbind result_bind response_json]. by rewrite Ht.
Qed.

(** X6: the whole-configuration import of a document whose four sections are
    objects with exactly their fields succeeds, and afterwards the transform
    of every object is the document's section for it. *)
Theorem importConfig_installs_document now fetch ok statusText (doc : jsobject) h :
  fetch (config_url now) = Response ok statusText (Some (VObj doc)) →
  well_fielded doc = true →
  (importConfig now fetch h).2 = true
  ∧ ∀ object,
      doc !! key_name object
      = Some (VObj (at_key (transforms (importConfig now fetch h).1) object)).
Proof.
  intros Hfetch Hfields.
  destruct (importConfig_well_fielded now fetch ok statusText doc h Hfetch Hfields)
    as (t & -> & Hsec).
  split; [done|]. apply Hsec.
Qed.

(** X7: a reset of any object right after a whole-configuration import, both
    answered with the same well-shaped document, changes no transform. *)
Theorem reset_after_import_changes_nothing now now' fetch fetch' ok ok' statusText
    statusText' (doc : jsobject) object h :
  fetch (config_url now) = Response ok statusText (Some (VObj doc)) →
  fetch' (config_url now') = Response ok' statusText' (Some (VObj doc)) →
  well_shaped doc = true →
  transforms (resetToDefault now' fetch' object (importConfig now fetch h).1)
  = transforms (importConfig now fetch h).1.
Proof.
  intros Hfetch Hfetch' Hshape.
  destruct (importConfig_well_fielded now fetch ok statusText doc h Hfetch
              (well_shaped_well_fielded doc Hshape)) as (t & -> & Himported).
  destruct (defaultConfig_of_well_shaped doc Hshape) as (d & Hd & Hsec).
  rewrite transforms_resetToDefault, Hfetch'.
  cbn [mbind result_bind response_json]. rewrite Hd.
  cbn [fst transforms set_transforms].
  assert (Heq : at_key d object = at_key t object).
  { specialize (Himported object). specialize (Hsec object). congruence. }
  rewrite Heq. apply with_key_at_key.
Qed.

(** X8: when every transform has exactly its fields, the text [exportConfig]
    puts on the clipboard is the serialisation of a document from which
    [importConfig] restores these very transforms. *)
Theorem exportConfig_importConfig_roundtrip h :
  let config : jsobject :=
    <["telematicsDisplay" := VObj (at_key (transforms h) telematicsDisplay)]>
    (<["fuelSensor" := VObj (at_key (transforms h) fuelSensor)]>
    (<["truck" := VObj (at_key (transforms h) truck)]>
    {["logo" := VObj (at_key (transforms h) logo)]})) in
  transforms_have_fields (transforms h) = true →
  clipboard (exportConfig true h).1 = Some (JSON_stringify (VObj config) (Some 2%nat))
  ∧ ∀ now fetch ok statusText h',
      fetch (config_url now) = Response ok statusText (Some (VObj config)) →
      importConfig now fetch h' = (set_transforms (transforms h) h', true).
Proof.
  intros config Hfields. split; [done|].
  intros now fetch ok st h' Hfetch.
  assert (Hconfig : ∀ object,
            config !! key_name object = Some (VObj (at_key (transforms h) object))).
  { intros []; subst config; cbn [key_name];
      repeat first [ rewrite lookup_insert_eq; reflexivity
                   | rewrite lookup_insert_ne by done
                   | apply lookup_singleton_eq ]. }
  assert (Hwf : well_fielded config = true).
  { unfold well_fielded, section_has_fields. unfold transforms_have_fields in Hfields.
    cbn [forallb] in *. by rewrite !Hconfig. }
  destruct (transforms_of_config_well_fielded config Hwf) as (t & Ht & Hsec).
  unfold importConfig, await_fetch. rewrite Hfetch.
  cbn [mbind result_bind response_json]. rewrite Ht.
  f_equal. f_equal. apply per_object_ext. intros object.
  specialize (Hsec object). rewrite Hconfig in Hsec. congruence.
Qed.

End ImportProperties.

Section ConfigSyncErrors.
Context {P : Platform}.
Import ConfigSync Controllers.

Lemma key_name_inj object object' : key_name object = key_name object' → object = object'.
Proof. by destruct object, object'. Qed.

(** X9: when the server answers the document request with a status that is
    not ok, [readConfig] throws the error naming the status text, whatever
    the body; the per-object export and import throw the same error, and the
    export and import buttons then change no controller and not the
    clipboard, and raise one alert each. *)
Theorem not_ok_response_fails fetch statusText body clipboard_ok object config p :
  fetch CONFIG_PATH = Response false statusText body →
  let e := Error ("Failed to fetch config: " +:+ statusText) in
  readConfig fetch = Throw e
  ∧ exportToConfig fetch clipboard_ok object config = Throw e
  ∧ importFromConfig fetch object = Throw e
  ∧ handleExport fetch clipboard_ok object p
    = alert "Export failed. Check console for details." p
  ∧ handleImport fetch object p = alert "Import failed. Check console for details." p.
Proof.
  intros Hfetch e.
  assert (Hread : readConfig fetch = Throw e).
  { unfold readConfig, await_fetch. by rewrite Hfetch. }
  assert (Hexport : ∀ c, exportToConfig fetch clipboard_ok object c = Throw e).
  { intros c. unfold exportToConfig. by rewrite Hread. }
  assert (Himport : importFromConfig fetch object = Throw e).
  { unfold importFromConfig. by rewrite Hread. }
  repeat split; try done.
  - unfold handleExport. by rewrite Hexport.
  - unfold handleImport. by rewrite Himport.
Qed.

Lemma importFromConfig_section fetch statusText (doc : jsobject) object :
  fetch CONFIG_PATH = Response true statusText (Some (VObj doc)) →
  importFromConfig fetch object =
    let section := default VUndefined (doc !! key_name object) in
    if negb (truthy section) then Throw (KeyNotFound (key_name object)) else Ok section.
Proof. intros Hfetch. unfold importFromConfig. by rewrite (readConfig_ok _ _ _ Hfetch). Qed.

(** X10: against a document that is a mapping, [importFromConfig] returns a
    value exactly when the document holds that value under the object's key
    and the value is truthy; a section that is present but falsy (null, 0,
    false, the empty string) is reported as a missing key. *)
Theorem importFromConfig_truthy_section fetch statusText (doc : jsobject) object :
  fetch CONFIG_PATH = Response true statusText (Some (VObj doc)) →
  (∀ v, importFromConfig fetch object = Ok v
        ↔ doc !! key_name object = Some v ∧ truthy v = true)
  ∧ (∀ v, doc !! key_name object = Some v → truthy v = false →
          importFromConfig fetch object = Throw (KeyNotFound (key_name object))).
Proof.
  intros Hfetch.
  rewrite (importFromConfig_section fetch statusText doc object Hfetch). cbn zeta. split.
  - intros v. destruct (doc !! key_name object) as [w|]; cbn [default from_option id].
    + destruct (truthy w) eqn:Hw; cbn [negb]; split.
      * intros [= ->]. done.
      * by intros [[= ->] _].
      * done.
      * intros [[= ->] Hv]. congruence.
    + cbn. split; [done|]. by intros [? _].
  - intros v -> Hv. cbn [default from_option id]. by rewrite Hv.
Qed.

(** X11: the document that the export of [object] serialises keeps the
    section of every other object: importing another object from it gives
    what importing it from the document read gives. *)
Theorem export_keeps_other_sections fetch fetch' statusText statusText' (D : jsobject)
    object other config :
  fetch CONFIG_PATH = Response true statusText (Some (VObj D)) →
  fetch' CONFIG_PATH
    = Response true statusText' (Some (VObj (<[key_name object := config]> D))) →
  other ≠ object →
  exportToConfig fetch true object config
    = Ok (JSON_stringify (VObj (<[key_name object := config]> D)) (Some 2%nat))
  ∧ importFromConfig fetch' other = importFromConfig fetch other.
Proof.
  intros Hfetch Hfetch' Hne. split.
  - unfold exportToConfig. by rewrite (readConfig_ok _ _ _ Hfetch).
  - unfold importFromConfig.
    rewrite (readConfig_ok _ _ _ Hfetch), (readConfig_ok _ _ _ Hfetch').
    cbn [mbind result_bind get].
    rewrite lookup_insert_ne; [done|].
    intros Heq. apply Hne. symmetry. by apply key_name_inj.
Qed.

(** X12: a successful import button press puts the document's section in the
    controller of [object], marks it imported, and touches neither the other
    controllers nor the clipboard, and raises no alert. *)
Theorem handleImport_installs_section fetch statusText (doc : jsobject) object section p :
  fetch CONFIG_PATH = Response true statusText (Some (VObj doc)) →
  doc !! key_name object = Some section →
  truthy section = true →
  let p' := handleImport fetch object p in
  config (at_key (controllers p') object) = section
  ∧ imported (at_key (controllers p') object) = true
  ∧ (∀ other, other ≠ object →
       at_key (controllers p') other = at_key (controllers p) other)
  ∧ clipboard p' = clipboard p
  ∧ alerts p' = alerts p.
Proof.
  intros Hfetch Hsection Htruthy.
  assert (Himport : importFromConfig fetch object = Ok section).
  { rewrite (importFromConfig_section fetch statusText doc object Hfetch). cbn zeta.
    rewrite Hsection. cbn [default from_option id]. by rewrite Htruthy. }
  cbn zeta. unfold handleImport. rewrite Himport.
  unfold in_controller. cbn [controllers clipboard alerts].
  rewrite at_key_with_key. repeat split; try done.
  intros other Hne. by apply at_key_with_key_ne.
Qed.

(** X13: the export button never changes the configuration of any controller;
    either it sets the clipboard and raises no alert, or it leaves the
    clipboard and raises exactly one alert. *)
Theorem handleExport_keeps_configs fetch clipboard_ok object p :
  let p' := handleExport fetch clipboard_ok object p in
  (∀ other, config (at_key (controllers p') other) = config (at_key (controllers p) other))
  ∧ ((∃ text, clipboard p' = Some text ∧ alerts p' = alerts p)
     ∨ (clipboard p' = clipboard p
        ∧ alerts p' = alerts p ++ ["Export failed. Check console for details."])).
Proof.
  cbn zeta. unfold handleExport.
  destruct (exportToConfig _ _ _ _) as [text|e].
  - unfold in_controller. cbn [controllers clipboard alerts]. split; [|left; eauto].
    intros other. destruct (decide (object = other)) as [<-|Hne].
    + by rewrite at_key_with_key.
    + by rewrite at_key_with_key_ne.
  - split; [done|]. by right.
Qed.

End ConfigSyncErrors.

Section EditProperties.
Import ControllerEdits ObjectControls.

Lemma array_set_in_range (l : list value) index x :
  (index < length l)%nat →
  length (array_set l index x) = length l
  ∧ array_set l index x !! index = Some x
  ∧ ∀ j, j ≠ index → array_set l index x !! j = l !! j.
Proof.
  intros Hlt. unfold array_set. rewrite decide_True by done.
  split; [apply length_insert|]. split.
  - by apply list_lookup_insert_eq.
  - intros j Hne. by apply list_lookup_insert_ne.
Qed.

(** X14: an edit of one component of an array field of a controller's
    configuration ([updatePosition], [updateRotation], [updateScale] of the
    logo, [updateSize]) replaces that component and nothing else: the other
    components, the length of the array and the other fields stay; and it
    throws when the configuration has no such field. *)
Theorem set_component_replaces_one field index x (o : jsobject) :
  (∀ l, o !! field = Some (VArr l) → (index < length l)%nat →
     ∃ l', set_component field index x (VObj o) = Ok (VObj (<[field := VArr l']> o))
           ∧ length l' = length l
           ∧ l' !! index = Some x
           ∧ ∀ j, j ≠ index → l' !! j = l !! j)
  ∧ (o !! field = None → set_component field index x (VObj o) = Throw TypeError).
Proof.
  split.
  - intros l Hfield Hlt. exists (array_set l index x).
    split; [|by apply array_set_in_range].
    unfold set_component. cbn [own_properties]. by rewrite Hfield.
  - intros Hnone. unfold set_component. cbn [own_properties]. by rewrite Hnone.
Qed.

(** X15: toggling the visibility of the logo twice gives back the
    configuration it started from, when [visible] was a boolean. *)
Theorem toggleVisibility_twice (o : jsobject) b :
  o !! "visible" = Some (VBool b) →
  toggleVisibility (VObj o) ≫= toggleVisibility = Ok (VObj o).
Proof.
  intros Hvisible.
  assert (Hfirst : toggleVisibility (VObj o)
                   = Ok (VObj (<["visible" := VBool (negb b)]> o))).
  { unfold toggleVisibility. rewrite get_object, Hvisible. reflexivity. }
  rewrite Hfirst, bind_Ok.
  unfold toggleVisibility. rewrite get_object, lookup_insert_eq.
  cbn [default from_option id]. rewrite bind_Ok.
  unfold set_field. cbn [own_properties truthy].
  rewrite insert_insert_eq, negb_involutive.
  by rewrite insert_id.
Qed.

End EditProperties.

Section SliderProperties.
Context {P : Platform}.
Import UseObjectTransforms ObjectControls.

(** X16: moving the rotation slider of axis [index] to [value] degrees stores
    [value * (Math.PI / 180)] as that component of the object's rotation, so
    that the slider then shows that number times [180 / Math.PI]; the other
    axes show what they showed and the other fields of the transform stay. *)
Theorem rotation_slider_updates_one_axis now object index value h l :
  at_key (transforms h) object !! "rotation" = Some (VArr l) →
  (index < length l)%nat →
  ∃ updates,
    updateRotation (at_key (transforms h) object) index value = Ok updates
    ∧ let h' := updateTransform now object updates h in
      rotation_slider_value (at_key (transforms h') object) index
        = Some (to_degrees (to_radians value))
      ∧ (∀ j, j ≠ index →
           rotation_slider_value (at_key (transforms h') object) j
           = rotation_slider_value (at_key (transforms h) object) j)
      ∧ (∀ field, field ≠ "rotation" →
           at_key (transforms h') object !! field = at_key (transforms h) object !! field).
Proof.
  intros Hrotation Hlt.
  destruct (array_set_in_range l index (VNum (to_radians value)) Hlt)
    as (_ & Hat & Hother).
  eexists. split.
  { unfold updateRotation. rewrite Hrotation. reflexivity. }
  cbn zeta. rewrite transforms_updateTransform, at_key_with_key.
  split; [|split].
  - unfold rotation_slider_value.
    rewrite lookup_spread, lookup_singleton_eq. by rewrite Hat.
  - intros j Hne. unfold rotation_slider_value.
    rewrite lookup_spread, lookup_singleton_eq, Hrotation. by rewrite Hother.
  - intros field Hne. by rewrite lookup_spread, lookup_singleton_ne.
Qed.

(** X17: moving a position slider stores the value as that component of the
    object's position and leaves the other components and the other fields of
    the transform as they were. *)
Theorem position_slider_updates_one_axis now object index value h l :
  at_key (transforms h) object !! "position" = Some (VArr l) →
  (index < length l)%nat →
  ∃ updates l',
    updatePosition (at_key (transforms h) object) index value = Ok updates
    ∧ let h' := updateTransform now object updates h in
      at_key (transforms h') object !! "position" = Some (VArr l')
      ∧ length l' = length l
      ∧ l' !! index = Some (VNum value)
      ∧ (∀ j, j ≠ index → l' !! j = l !! j)
      ∧ (∀ field, field ≠ "position" →
           at_key (transforms h') object !! field = at_key (transforms h) object !! field).
Proof.
  intros Hposition Hlt.
  destruct (array_set_in_range l index (VNum value) Hlt) as (Hlen & Hat & Hother).
  exists {["position" := VArr (array_set l index (VNum value))]}, (array_set l index (VNum value)).
  split.
  { unfold updatePosition. rewrite Hposition. reflexivity. }
  cbn zeta. rewrite transforms_updateTransform, at_key_with_key.
  split; [|split; [|split; [|split]]]; try done.
  - by rewrite lookup_spread, lookup_singleton_eq.
  - intros field Hne. by rewrite lookup_spread, lookup_singleton_ne.
Qed.

End SliderProperties.

(** * The degree round trip through the slider *)

Section DegreeRoundTrip.
Import ObjectControls Binary64.

(** C9: for every degree value D in [-180, 180] that the rotation slider of an
    axis hands to [updateRotation], the radians stored are D times pi/180, and
    the slider, which shows the stored radians times 180/pi, then shows a
    finite number that differs from D by at most 1e-6. *)
Theorem rotation_slider_recovers_degrees (transform : jsobject) l index D :
  transform !! "rotation" = Some (VArr l) →
  (index < length l)%nat →
  valid_binary prec emax D = true →
  SFleb (literal (-180)) D = true → SFleb D (literal 180) = true →
  ∃ updates shown,
    updateRotation transform index D = Ok updates
    ∧ rotation_slider_value (spread transform updates) index = Some shown
    ∧ is_finite shown = true
    ∧ (Qabs (to_Q shown - to_Q D) <= 1 # 1000000)%Q.
Proof.
  intros Hrotation Hlt Hvalid Hlo Hhi.
  destruct (array_set_in_range l index (VNum (to_radians D)) Hlt) as (_ & Hat & _).
  exists {["rotation" := VArr (array_set l index (VNum (to_radians D)))]},
    (to_degrees (to_radians D)).
  split.
  { unfold updateRotation. rewrite Hrotation. reflexivity. }
  split.
  { unfold rotation_slider_value.
    rewrite lookup_spread, lookup_singleton_eq. by rewrite Hat. }
  destruct (in_range_signed D Hvalid Hlo Hhi) as (s & Hs & HD).
  unfold to_degrees, to_radians.
  rewrite radians_per_degree_eq, degrees_per_radian_eq.
  pose proof (mag_nonneg D) as HD0.
  pose proof B_minus_1073_small as [Hd0 Hd1].
  destruct (mul_error s D 5030569068109113 (-58) Hs) as [Hs1 He1].
  { fold radians_per_degree. rewrite mag_radians_per_degree, B_10. lra. }
  fold radians_per_degree in Hs1, He1.
  set (r1 := mul D radians_per_degree) in *.
  pose proof (mag_nonneg r1) as Hr0.
  rewrite mag_radians_per_degree, B_minus_51 in He1.
  apply Qabs_Qle_condition in He1.
  destruct (mul_error s r1 8063664102031864 (-47) Hs1) as [Hs2 He2].
  { fold degrees_per_radian. rewrite mag_degrees_per_radian, B_10. lra. }
  fold degrees_per_radian in Hs2, He2.
  set (r2 := mul r1 degrees_per_radian) in *.
  rewrite mag_degrees_per_radian, B_minus_51 in He2.
  apply Qabs_Qle_condition in He2.
  split; [by apply (signed_is_finite s)|].
  rewrite (to_Q_signed s r2 Hs2), (to_Q_signed s D Hs).
  apply Qabs_Qle_condition.
  destruct s; lra.
Qed.

End DegreeRoundTrip.

(** * The mirror over histories *)

Section MirrorInvariant.
Context {P : Platform}.
Import UseObjectTransforms Editor.

Lemma storageKey_inj object object' : storageKey object = storageKey object' → object = object'.
Proof. by destruct object, object'. Qed.

Lemma syncToStorage_consistent now object (o : jsobject) h :
  mirror_consistent h →
  mirror_consistent
    (syncToStorage now (storageKey object) (VObj o)
       (set_transforms (with_key (transforms h) object o) h)).
Proof.
  intros Hh k. unfold slot_consistent.
  destruct (syncToStorage_mirror now (storageKey object) (VObj o)
              (set_transforms (with_key (transforms h) object o) h)) as [-> _].
  rewrite transforms_syncToStorage. cbn [transforms localStorage set_transforms].
  rewrite lookup_insert_ne by (apply not_eq_sym, storageKey_ne_timestamp).
  destruct (decide (object = k)) as [<-|Hne].
  - by rewrite lookup_insert_eq, at_key_with_key.
  - rewrite lookup_insert_ne by (intros ?%storageKey_inj; done).
    rewrite at_key_with_key_ne by done. apply Hh.
Qed.

Lemma step_consistent h a :
  is_import a = false → mirror_consistent h → mirror_consistent (step h a).
Proof.
  intros Ha Hh.
  destruct a as [now object updates|now fetch object|now fetch|ok|now];
    try discriminate Ha; cbn [step].
  - assert (Heq : updateTransform now object updates h =
              set_transforms (with_key (transforms h) object
                                (spread (at_key (transforms h) object) updates))
                (syncToStorage now (storageKey object)
                   (VObj (spread (at_key (transforms h) object) updates))
                   (set_transforms (with_key (transforms h) object
                      (spread (at_key (transforms h) object) updates)) h))).
    { unfold updateTransform. by rewrite at_key_with_key. }
    rewrite Heq.
    pose proof (syncToStorage_consistent now object
                  (spread (at_key (transforms h) object) updates) h Hh) as Hsync.
    intros k. specialize (Hsync k). unfold slot_consistent in *.
    by rewrite transforms_syncToStorage in Hsync.
  - unfold resetToDefault. destruct (_ ≫= _) as [d|e].
    + rewrite spread_empty_l. by apply syncToStorage_consistent.
    + done.
  - unfold exportConfig. by destruct ok.
  - intros k. unfold slot_consistent.
    rewrite checkConnection_localStorage.
    replace (transforms (checkConnection now h)) with (transforms h); [apply Hh|].
    unfold checkConnection. destruct (localStorage h !! _) as [s|]; [|done].
    destruct (string_truthy s); [|done]. by destruct (parseInt s).
Qed.

(** X18: as long as no whole-configuration import is among them, the actions
    of the editor keep the mirror consistent: every object slot of the storage
    that has been written holds the serialisation of that object's current
    transform. *)
Theorem mirror_consistent_without_import actions h :
  forallb (λ a, negb (is_import a)) actions = true →
  mirror_consistent h →
  mirror_consistent (run actions h).
Proof.
  revert h. induction actions as [|a actions IH]; intros h Hno Hh; [done|].
  cbn [forallb] in Hno. apply andb_true_iff in Hno as [Ha Hno].
  apply negb_true_iff in Ha.
  cbn [run foldl]. fold (run actions (step h a)).
  apply IH; [done|]. by apply step_consistent.
Qed.

End MirrorInvariant.

Section ImportFailure.
Context {P : Platform}.
Import UseObjectTransforms.

Lemma transforms_of_config_missing_section (doc : jsobject) missing :
  doc !! key_name missing = None → ∃ e, transforms_of_config (VObj doc) = Throw e.
Proof.
  intros Hmissing. unfold transforms_of_config.
  destruct missing; cbn [key_name] in Hmissing;
    repeat first
      [ rewrite get_object
      | rewrite Hmissing; cbn [default from_option id]
      | rewrite get_undefined
      | rewrite bind_Ok
      | rewrite bind_Throw
      | by eexists
      | apply bind_throws; intros ? ].
Qed.

(** X19: a whole-configuration import that cannot be carried out - the request
    is rejected, the body is not JSON, or the document lacks the section of
    one of the four objects - returns false and leaves the hook exactly as it
    was: no transform is replaced and no alert is raised. *)
Theorem importConfig_fails_silently now fetch h :
  fetch (config_url now) = FetchRejects
  ∨ (∃ ok statusText, fetch (config_url now) = Response ok statusText None)
  ∨ (∃ ok statusText (doc : jsobject) missing,
       fetch (config_url now) = Response ok statusText (Some (VObj doc))
       ∧ doc !! key_name missing = None) →
  importConfig now fetch h = (h, false).
Proof.
  unfold importConfig, await_fetch.
  intros [->|[(ok & st & ->)|(ok & st & doc & missing & -> & Hmissing)]]; try done.
  destruct (transforms_of_config_missing_section doc missing Hmissing) as [e He].
  cbn [mbind result_bind response_json]. by rewrite He.
Qed.

End ImportFailure.

(** * Closed instances of the further properties *)

Section MoreInstances.
Import UseObjectTransforms ConfigSync Controllers ControllerEdits ObjectControls Binary64.
#[local] Existing Instance Sample.platform.

(** A quarter turn. *)
Lemma degrees_roundtrip_witness :
  let D := literal 90 in
  (valid_binary prec emax D = true
   ∧ SFleb (literal (-180)) D = true ∧ SFleb D (literal 180) = true)
  ∧ is_finite (to_degrees (to_radians D)) = true
  ∧ (Qabs (to_Q (to_degrees (to_radians D)) - to_Q D) <= 1 # 1000000)%Q.
Proof.
  intros D.
  assert (Hvalid : valid_binary prec emax D = true) by (vm_compute; reflexivity).
  assert (Hlo : SFleb (literal (-180)) D = true) by (vm_compute; reflexivity).
  assert (Hhi : SFleb D (literal 180) = true) by (vm_compute; reflexivity).
  split; [repeat split; assumption|].
  apply (degrees_roundtrip D Hvalid Hlo Hhi).
Defined.

(** The truck's y rotation slider is moved to minus an eighth of a turn. *)
Lemma rotation_slider_recovers_degrees_witness :
  let D := literal (-45) in
  (Sample.truck_section !! "rotation" = Some (Sample.vec [0; 3; 0])
   ∧ (1 < length [Sample.num 0; Sample.num 3; Sample.num 0])%nat
   ∧ valid_binary prec emax D = true
   ∧ SFleb (literal (-180)) D = true ∧ SFleb D (literal 180) = true)
  ∧ ∃ updates shown,
      updateRotation Sample.truck_section 1 D = Ok updates
      ∧ rotation_slider_value (spread Sample.truck_section updates) 1 = Some shown
      ∧ is_finite shown = true
      ∧ (Qabs (to_Q shown - to_Q D) <= 1 # 1000000)%Q.
Proof.
  intros D.
  assert (Hrotation : Sample.truck_section !! "rotation" = Some (Sample.vec [0; 3; 0]))
    by (vm_compute; reflexivity).
  assert (Hlt : (1 < length [Sample.num 0; Sample.num 3; Sample.num 0])%nat) by (cbn; lia).
  assert (Hvalid : valid_binary prec emax D = true) by (vm_compute; reflexivity).
  assert (Hlo : SFleb (literal (-180)) D = true) by (vm_compute; reflexivity).
  assert (Hhi : SFleb D (literal 180) = true) by (vm_compute; reflexivity).
  split; [repeat split; assumption|].
  apply (rotation_slider_recovers_degrees Sample.truck_section _ 1%nat D
           Hrotation Hlt Hvalid Hlo Hhi).
Defined.

(** The truck is reset against a document that has lost its logo. *)
Lemma resetToDefault_needs_all_sections_witness :
  let doc : jsobject := delete "logo" Sample.document in
  let fetch : Fetch := λ _, Sample.serve doc in
  (fetch (config_url 1000) = Response true "OK" (Some (VObj doc))
   ∧ doc !! key_name logo = None)
  ∧ resetToDefault 1000 fetch truck Sample.hook
    = UseObjectTransforms.alert "Reset failed. Check console for details." Sample.hook.
Proof.
  intros doc fetch.
  assert (Hmissing : doc !! key_name logo = None) by (vm_compute; reflexivity).
  split; [split; [reflexivity|exact Hmissing]|].
  apply (resetToDefault_needs_all_sections 1000 fetch true "OK" doc logo truck Sample.hook);
    [reflexivity|exact Hmissing].
Defined.

Lemma importConfig_installs_document_witness :
  let fetch : Fetch := λ _, Sample.serve Sample.document' in
  (fetch (config_url 1000) = Response true "OK" (Some (VObj Sample.document'))
   ∧ Shape.well_fielded Sample.document' = true)
  ∧ (importConfig 1000 fetch Sample.hook).2 = true
  ∧ ∀ object,
      Sample.document' !! key_name object
      = Some (VObj (at_key (transforms (importConfig 1000 fetch Sample.hook).1) object)).
Proof.
  intros fetch.
  assert (Hfields : Shape.well_fielded Sample.document' = true) by (vm_compute; reflexivity).
  split; [split; [reflexivity|exact Hfields]|].
  apply (importConfig_installs_document 1000 fetch true "OK" Sample.document' Sample.hook);
    [reflexivity|exact Hfields].
Defined.

Lemma reset_after_import_changes_nothing_witness :
  let fetch : Fetch := λ _, Sample.serve Sample.document' in
  (fetch (config_url 1000) = Response true "OK" (Some (VObj Sample.document'))
   ∧ fetch (config_url 2000) = Response true "OK" (Some (VObj Sample.document'))
   ∧ Shape.well_shaped Sample.document' = true)
  ∧ transforms (resetToDefault 2000 fetch logo (importConfig 1000 fetch Sample.hook).1)
    = transforms (importConfig 1000 fetch Sample.hook).1.
Proof.
  intros fetch.
  assert (Hshape : Shape.well_shaped Sample.document' = true) by (vm_compute; reflexivity).
  split; [repeat split; try reflexivity; exact Hshape|].
  apply (reset_after_import_changes_nothing 1000 2000 fetch fetch true true "OK" "OK"
           Sample.document' logo Sample.hook); [reflexivity|reflexivity|exact Hshape].
Defined.

Lemma exportConfig_importConfig_roundtrip_witness :
  let h := updateTransform 500 truck Sample.moved Sample.hook in
  let config : jsobject :=
    <["telematicsDisplay" := VObj (at_key (transforms h) telematicsDisplay)]>
    (<["fuelSensor" := VObj (at_key (transforms h) fuelSensor)]>
    (<["truck" := VObj (at_key (transforms h) truck)]>
    {["logo" := VObj (at_key (transforms h) logo)]})) in
  let fetch : Fetch := λ _, Sample.serve config in
  Shape.transforms_have_fields (transforms h) = true
  ∧ UseObjectTransforms.clipboard (exportConfig true h).1 = Some (JSON_stringify (VObj config) (Some 2%nat))
  ∧ importConfig 1000 fetch Sample.hook = (set_transforms (transforms h) Sample.hook, true).
Proof.
  intros h config fetch.
  assert (Hfields : Shape.transforms_have_fields (transforms h) = true)
    by (vm_compute; reflexivity).
  split; [exact Hfields|].
  destruct (exportConfig_importConfig_roundtrip h Hfields) as [Hclip Himport].
  split; [exact Hclip|].
  apply (Himport 1000 fetch true "OK"%string Sample.hook). reflexivity.
Defined.

Lemma not_ok_response_fails_witness :
  let fetch : Fetch := λ _, Response false "Not Found" None in
  let e := Error ("Failed to fetch config: " +:+ "Not Found") in
  fetch CONFIG_PATH = Response false "Not Found" None
  ∧ readConfig fetch = Throw e
  ∧ exportToConfig fetch true logo (VObj Sample.logo_section) = Throw e
  ∧ importFromConfig fetch logo = Throw e
  ∧ handleExport fetch true logo Sample.page
    = Controllers.alert "Export failed. Check console for details." Sample.page
  ∧ handleImport fetch logo Sample.page
    = Controllers.alert "Import failed. Check console for details." Sample.page.
Proof.
  intros fetch e. split; [reflexivity|].
  apply (not_ok_response_fails fetch "Not Found" None true logo (VObj Sample.logo_section)
           Sample.page).
  reflexivity.
Defined.

(** The logo section of the document is [null]. *)
Lemma importFromConfig_truthy_section_witness :
  let doc : jsobject := <["logo" := VNull]> Sample.document in
  let fetch : Fetch := λ _, Sample.serve doc in
  (fetch CONFIG_PATH = Response true "OK" (Some (VObj doc))
   ∧ doc !! key_name logo = Some VNull ∧ truthy VNull = false)
  ∧ importFromConfig fetch logo = Throw (KeyNotFound (key_name logo)).
Proof.
  intros doc fetch.
  assert (Hsection : doc !! key_name logo = Some VNull) by (vm_compute; reflexivity).
  split; [repeat split; try reflexivity; exact Hsection|].
  destruct (importFromConfig_truthy_section fetch "OK" doc logo) as [_ Hfalsy];
    [reflexivity|].
  apply (Hfalsy VNull Hsection). reflexivity.
Defined.

Lemma export_keeps_other_sections_witness :
  let config := VObj (<["position" := Sample.vec [2; 2; 2]]> Sample.truck_section) in
  let fetch : Fetch := λ _, Sample.serve Sample.document in
  let fetch' : Fetch := λ _, Sample.serve (<[key_name truck := config]> Sample.document) in
  (fetch CONFIG_PATH = Response true "OK" (Some (VObj Sample.document))
   ∧ fetch' CONFIG_PATH
     = Response true "OK" (Some (VObj (<[key_name truck := config]> Sample.document)))
   ∧ logo ≠ truck)
  ∧ exportToConfig fetch true truck config
    = Ok (JSON_stringify (VObj (<[key_name truck := config]> Sample.document)) (Some 2%nat))
  ∧ importFromConfig fetch' logo = importFromConfig fetch logo.
Proof.
  intros config fetch fetch'.
  assert (Hne : logo ≠ truck) by discriminate.
  split; [repeat split; try reflexivity; exact Hne|].
  apply (export_keeps_other_sections fetch fetch' "OK" "OK" Sample.document truck logo
           config); [reflexivity|reflexivity|exact Hne].
Defined.

Lemma handleImport_installs_section_witness :
  let fetch : Fetch := λ _, Sample.serve Sample.document' in
  let section := VObj (<["position" := Sample.vec [2; 2; 2]]> Sample.truck_section) in
  let p' := handleImport fetch truck Sample.page in
  (fetch CONFIG_PATH = Response true "OK" (Some (VObj Sample.document'))
   ∧ Sample.document' !! key_name truck = Some section
   ∧ truthy section = true
   ∧ logo ≠ truck)
  ∧ config (at_key (controllers p') truck) = section
  ∧ imported (at_key (controllers p') truck) = true
  ∧ at_key (controllers p') logo = at_key (controllers Sample.page) logo
  ∧ Controllers.clipboard p' = Controllers.clipboard Sample.page
  ∧ Controllers.alerts p' = Controllers.alerts Sample.page.
Proof.
  intros fetch section p'.
  assert (Hsection : Sample.document' !! key_name truck = Some section)
    by (vm_compute; reflexivity).
  assert (Hne : logo ≠ truck) by discriminate.
  split; [repeat split; try reflexivity; assumption|].
  destruct (handleImport_installs_section fetch "OK" Sample.document' truck section
              Sample.page eq_refl Hsection eq_refl) as (Hc & Hi & Hframe & Hclip & Halerts).
  split; [exact Hc|]. split; [exact Hi|]. split; [apply Hframe; exact Hne|].
  split; [exact Hclip|exact Halerts].
Defined.

(** The y component of the truck's position is set to 7; the truck has no
    [size] to edit. *)
Lemma set_component_replaces_one_witness :
  let l := [Sample.num 1; Sample.num (-1); Sample.num (-5)] in
  (Sample.truck_section !! "position" = Some (VArr l) ∧ (1 < length l)%nat
   ∧ Sample.truck_section !! "size" = None)
  ∧ (∃ l', ControllerEdits.updatePosition 1 (literal 7) (VObj Sample.truck_section)
           = Ok (VObj (<["position" := VArr l']> Sample.truck_section))
         ∧ length l' = length l
         ∧ l' !! 1%nat = Some (Sample.num 7)
         ∧ ∀ j, j ≠ 1%nat → l' !! j = l !! j)
  ∧ ControllerEdits.updateSize 0 (literal 7) (VObj Sample.truck_section) = Throw TypeError.
Proof.
  intros l.
  assert (Hposition : Sample.truck_section !! "position" = Some (VArr l))
    by (vm_compute; reflexivity).
  assert (Hlt : (1 < length l)%nat) by (cbn; lia).
  assert (Hsize : Sample.truck_section !! "size" = None) by (vm_compute; reflexivity).
  split; [repeat split; assumption|]. split.
  - destruct (set_component_replaces_one "position" 1%nat (Sample.num 7) Sample.truck_section)
      as [Hin _].
    exact (Hin l Hposition Hlt).
  - destruct (set_component_replaces_one "size" 0%nat (Sample.num 7) Sample.truck_section)
      as [_ Hout].
    exact (Hout Hsize).
Defined.

Lemma toggleVisibility_twice_witness :
  Sample.logo_section !! "visible" = Some (VBool true)
  ∧ toggleVisibility (VObj Sample.logo_section) ≫= toggleVisibility
    = Ok (VObj Sample.logo_section).
Proof.
  assert (Hvisible : Sample.logo_section !! "visible" = Some (VBool true))
    by (vm_compute; reflexivity).
  split; [exact Hvisible|].
  apply (toggleVisibility_twice Sample.logo_section true Hvisible).
Defined.

(** The yaw slider of the truck is moved to 90 degrees. *)
Lemma rotation_slider_updates_one_axis_witness :
  let l := [Sample.num 0; Sample.num 3; Sample.num 0] in
  (at_key (transforms Sample.hook) truck !! "rotation" = Some (VArr l)
   ∧ (1 < length l)%nat)
  ∧ ∃ updates,
      ObjectControls.updateRotation (at_key (transforms Sample.hook) truck) 1 (literal 90) = Ok updates
      ∧ rotation_slider_value
          (at_key (transforms (updateTransform 1000 truck updates Sample.hook)) truck) 1
        = Some (to_degrees (to_radians (literal 90))).
Proof.
  intros l.
  assert (Hrotation : at_key (transforms Sample.hook) truck !! "rotation" = Some (VArr l))
    by (vm_compute; reflexivity).
  assert (Hlt : (1 < length l)%nat) by (cbn; lia).
  split; [split; assumption|].
  destruct (rotation_slider_updates_one_axis 1000 truck 1%nat (literal 90) Sample.hook l
              Hrotation Hlt) as (updates & Hupdates & Hshown & _).
  exists updates. split; [exact Hupdates|exact Hshown].
Defined.

Lemma position_slider_updates_one_axis_witness :
  let l := [Sample.num 1; Sample.num (-1); Sample.num (-5)] in
  (at_key (transforms Sample.hook) truck !! "position" = Some (VArr l)
   ∧ (1 < length l)%nat)
  ∧ ∃ updates l',
      ObjectControls.updatePosition (at_key (transforms Sample.hook) truck) 1 (literal 7) = Ok updates
      ∧ at_key (transforms (updateTransform 1000 truck updates Sample.hook)) truck
          !! "position" = Some (VArr l')
      ∧ l' !! 1%nat = Some (VNum (literal 7)).
Proof.
  intros l.
  assert (Hposition : at_key (transforms Sample.hook) truck !! "position" = Some (VArr l))
    by (vm_compute; reflexivity).
  assert (Hlt : (1 < length l)%nat) by (cbn; lia).
  split; [split; assumption|].
  destruct (position_slider_updates_one_axis 1000 truck 1%nat (literal 7) Sample.hook l
              Hposition Hlt) as (updates & l' & Hupdates & Hstored & _ & Hat & _).
  exists updates, l'. repeat split; assumption.
Defined.

(** The truck is moved, the connection polled, the logo reset, the
    configuration exported. *)
Lemma mirror_consistent_without_import_witness :
  let actions :=
    [Editor.Update 500 truck Sample.moved; Editor.Poll 600;
     Editor.Reset 1000 (λ _, Sample.serve Sample.document) logo; Editor.Export true] in
  (forallb (λ a, negb (Editor.is_import a)) actions = true
   ∧ Editor.mirror_consistent Sample.hook)
  ∧ Editor.mirror_consistent (Editor.run actions Sample.hook).
Proof.
  intros actions.
  assert (Hno : forallb (λ a, negb (Editor.is_import a)) actions = true) by reflexivity.
  assert (Hh : Editor.mirror_consistent Sample.hook) by (intros []; exact I).
  split; [split; assumption|].
  apply (mirror_consistent_without_import actions Sample.hook Hno Hh).
Defined.

(** The document has lost its logo. *)
Lemma importConfig_fails_silently_witness :
  let doc : jsobject := delete "logo" Sample.document in
  let fetch : Fetch := λ _, Sample.serve doc in
  (fetch (config_url 1000) = Response true "OK" (Some (VObj doc))
   ∧ doc !! key_name logo = None)
  ∧ importConfig 1000 fetch Sample.hook = (Sample.hook, false).
Proof.
  intros doc fetch.
  assert (Hmissing : doc !! key_name logo = None) by (vm_compute; reflexivity).
  split; [split; [reflexivity|exact Hmissing]|].
  apply (importConfig_fails_silently 1000 fetch Sample.hook).
  right. right. exists true, "OK"%string, doc, logo. split; [reflexivity|exact Hmissing].
Defined.

End MoreInstances.
